(** * Token binding and request authentication: a shallow embedding

    The development follows the TypeScript sources:
    - [CryptoOps] (key store, thumbprints, signed JWTs),
    - [BaseClient.sendPostRequest] (throttling gate around the token POST),
    - [NativeAuthStandardController.signIn],
    - the payload built by [PopTokenGenerator.signPopToken].

    Asynchronous methods are modelled by their settled outcome; the key store
    is threaded explicitly; platform capabilities that are consumed but not
    implemented by these classes are record fields. *)

From Stdlib Require Import ZArith Ascii String List Bool.
From Stdlib.Strings Require Import Byte.
From stdpp Require Import base option list strings pretty gmap.

Set Warnings "-register-all".

Local Open Scope string_scope.
Local Open Scope Z_scope.

(** ** JavaScript values and settled promises *)

Module Js.

(** JSON-like values; an object keeps its own-property order. *)
Inductive JsValue : Type :=
| JsUndefined
| JsNull
| JsBool (b : bool)
| JsNumber (z : Z)
| JsString (s : string)
| JsArray (xs : list JsValue)
| JsObject (fields : list (string * JsValue)).

Abbreviation JsFields := (list (string * JsValue)).

(** [obj.name]: the property, or [undefined] when the object has none. *)
Fixpoint getField (name : string) (fields : JsFields) : JsValue :=
  match fields with
  | [] => JsUndefined
  | (k, v) :: rest => if String.eqb k name then v else getField name rest
  end.

(** [obj.name = v]: an existing property keeps its place, a new one is
    appended. *)
Fixpoint setField (name : string) (v : JsValue) (fields : JsFields) : JsFields :=
  match fields with
  | [] => [(name, v)]
  | (k, w) :: rest =>
      if String.eqb k name then (k, v) :: rest
      else (k, w) :: setField name v rest
  end.

(** An optional string as a value: [undefined] when absent. *)
Definition ofOptString (o : option string) : JsValue :=
  match o with Some s => JsString s | None => JsUndefined end.

(** Truthiness of an optional string: absent and the empty string are falsy. *)
Definition truthyStr (o : option string) : bool :=
  match o with
  | Some s => negb (String.eqb s "")
  | None => false
  end.

(** The pieces of [s] between occurrences of [sep], as [s.split(sep)]
    gives them for a one-character separator. *)
Fixpoint splitOn (sep : ascii) (s : string) : list string :=
  match s with
  | EmptyString => [EmptyString]
  | String c rest =>
      if Ascii.eqb c sep then EmptyString :: splitOn sep rest
      else match splitOn sep rest with
           | piece :: pieces => String c piece :: pieces
           | [] => [String c EmptyString]
           end
  end.

(** [s] has no occurrence of [c]. *)
Fixpoint lacks (c : ascii) (s : string) : bool :=
  match s with
  | EmptyString => true
  | String d rest => negb (Ascii.eqb d c) && lacks c rest
  end.

(** What a rejected promise of a platform capability carries. *)
Inductive JsThrown : Type :=
| JsError (message : string)   (* [instanceof Error] holds *)
| JsNonError.                  (* any other thrown value *)

(** The outcome of a call that may throw. *)
Inductive Outcome (E A : Type) : Type :=
| Ok (a : A)
| Throw (e : E).
Arguments Ok {E A} a.
Arguments Throw {E A} e.

Definition bind {E A B} (m : Outcome E A) (k : A -> Outcome E B) : Outcome E B :=
  match m with
  | Ok a => k a
  | Throw e => Throw e
  end.

Definition mapThrow {E F A} (f : E -> F) (m : Outcome E A) : Outcome F A :=
  match m with
  | Ok a => Ok a
  | Throw e => Throw (f e)
  end.

Definition isOk {E A} (m : Outcome E A) : bool :=
  match m with Ok _ => true | Throw _ => false end.

End Js.

Declare Scope outcome_scope.
Delimit Scope outcome_scope with outcome.
Notation "'let*' x ':=' m 'in' k" := (Js.bind m (fun x => k))
  (at level 10, x name, m at level 100, k at level 200) : outcome_scope.
Local Open Scope outcome_scope.

Declare Scope async_scope.
Delimit Scope async_scope with async.

(** ** The key store (CryptoKeyStore and its partitions) *)

Module KeyStore.
Import Js.

(** WebCrypto's [CryptoKey]: its readable attributes, and the key material
    as an internal slot (held as a JWK). *)
Inductive KeyKind : Type := PublicKind | PrivateKind | SecretKind.

Record CryptoKey : Type := {
  keyKind : KeyKind;
  extractable : bool;
  usages : list string;
  material : JsFields;
}.

(** [CryptoKeyPair], both halves optional as in the DOM typings. *)
Record CryptoKeyPair : Type := {
  pairPublicKey : option CryptoKey;
  pairPrivateKey : option CryptoKey;
}.

Record CachedKeyPair : Type := {
  publicKey : CryptoKey;
  privateKey : CryptoKey;
  requestMethod : option string;
  requestUri : option string;
}.

(** The storage interface one partition offers to [CryptoOps]:
    [getItem], [setItem], [removeItem], [containsKey], [deleteDatabase].
    A write settles: [setItem] gives what the partition holds afterwards and
    whether the promise resolved or was rejected. A read gives what it
    finds, a removal what it leaves; [deleteDatabase] gives what the wipe
    leaves of this partition and whether its entries could be dropped. *)
Class AsyncStorage (V S : Type) : Type := {
  getItem : S -> string -> option V;
  setItem : S -> string -> V -> S * Outcome JsThrown unit;
  removeItem : S -> string -> S;
  containsKey : S -> string -> bool;
  deleteDatabase : S -> S * bool;
}.

(** Modelled from the spec: the Key Store contract of section 4.1 ([put]
    upserts, [get], [remove], [clear]); the class behind a partition,
    [AsyncMemoryStorage], is not among the sources. A write that resolved
    has upserted. By section 5 a put is atomic at the granularity of a key:
    a write, also a rejected one, changes no lookup but that of its own key,
    and under that key only its own value can newly be found. *)
Record StorageContract {V S : Type} (St : AsyncStorage V S) : Prop := {
  get_after_set : forall s k v k',
    (setItem s k v).2 = Ok tt ->
    getItem (setItem s k v).1 k' = if decide (k = k') then Some v else getItem s k';
  set_touches_its_key : forall s k v k',
    getItem (setItem s k v).1 k' = getItem s k'
    \/ (k' = k /\ getItem (setItem s k v).1 k' = Some v);
  get_after_remove : forall s k k',
    getItem (removeItem s k) k' = if decide (k = k') then None else getItem s k';
  contains_iff_get : forall s k,
    containsKey s k = true <-> is_Some (getItem s k);
  get_after_wipe : forall s k,
    (deleteDatabase s).2 = true -> getItem (deleteDatabase s).1 k = None;
  wipe_adds_nothing : forall s k v,
    getItem (deleteDatabase s).1 k = Some v -> getItem s k = Some v;
}.

(** Modelled from the spec: one namespace of the keyed storage of section 6
    as a finite map (the in-memory test double of the design notes); its
    writes and its wipe always succeed. *)
#[export] Instance MemoryStorage (V : Type) : AsyncStorage V (gmap string V) := {|
  getItem s k := s !! k;
  setItem s k v := (<[k := v]> s, Ok tt);
  removeItem s k := delete k s;
  containsKey s k := bool_decide (is_Some (s !! k));
  deleteDatabase s := (∅, true);
|}.

(** [CryptoKeyStore]: the two partitions, in the order the constructor of
    [CryptoOps] creates them. *)
Record CryptoKeyStore (SA SS : Type) : Type := {
  asymmetricKeys : SA;
  symmetricKeys : SS;
}.
Arguments asymmetricKeys {SA SS} _.
Arguments symmetricKeys {SA SS} _.

End KeyStore.

(** ** CryptoOps *)

Module CryptoOps.
Import Js KeyStore.

Inductive BrowserAuthError : Type :=
| KeyGenerationFailedError (errDetail : option string)
| SigningKeyNotFoundInStorageError.

(** What a rejected promise of a [CryptoOps] method carries: an error of a
    capability passed through, or a [BrowserAuthError] created here. *)
Inductive Thrown : Type :=
| Passed (t : JsThrown)
| AuthError (e : BrowserAuthError).

Abbreviation Cap := (Outcome JsThrown).
Abbreviation Promise := (Outcome Thrown).

Inductive CryptoKeyTypes : Type := ReqCnf | StkJwk.

(** The part of [CryptoKeyOptions] the class reads. *)
Record CryptoKeyOptions : Type := {
  keyGenAlgorithm : string;
  keypairUsages : list string;
  privateKeyUsage : list string;
}.

Record SignedHttpRequestParameters : Type := {
  resourceRequestMethod : option string;
  resourceRequestUri : option string;
  shrClaims : option string;
  shrNonce : option string;
}.

(** The capabilities [CryptoOps] consumes: [BrowserCrypto] (key generation,
    JWK export and import, signing, SHA-256, [getJwkString]), [Base64Encode],
    [BrowserStringUtils], the platform's [JSON], and the key options of
    [CryptoKeyConfig]. None of them is implemented by the class. *)
Record Platform : Type := {
  generateKeyPair : CryptoKeyOptions -> bool -> Cap (option CryptoKeyPair);
  exportJwk : CryptoKey -> Cap JsFields;
  importJwk : CryptoKeyOptions -> JsFields -> bool -> list string -> Cap CryptoKey;
  sign : CryptoKeyOptions -> CryptoKey -> list byte -> Cap (list byte);
  sha256Digest : string -> Cap (list byte);
  getJwkString : JsFields -> string;
  urlEncode : string -> string;
  urlEncodeArr : list byte -> string;
  stringToArrayBuffer : string -> list byte;
  JSON_stringify : JsValue -> string;
  JSON_parse : string -> Cap JsValue;
  AccessTokenBinding : CryptoKeyOptions;
  RefreshTokenBinding : CryptoKeyOptions;
}.

(** Modelled from the spec: the constant [CryptoKeyFormats.jwk] is declared
    in [CryptoConstants], which is not among the sources; section 4.2, step 3
    gives the header as [{alg, type: "jwk"}]. *)
Definition CryptoKeyFormats_jwk : string := "jwk".

(** [private static EXTRACTABLE: boolean = true] *)
Definition EXTRACTABLE : bool := true.

(** A property of [this.cache], as [this.cache[name]] yields it. *)
Inductive Partition (SA SS : Type) : Type :=
| AsymmetricPartition (s : SA)
| SymmetricPartition (s : SS).
Arguments AsymmetricPartition {SA SS} s.
Arguments SymmetricPartition {SA SS} s.

Section Methods.
Context {SA SS : Type}.
Context {StA : AsyncStorage CachedKeyPair SA} {StS : AsyncStorage CryptoKey SS}.
Variable bc : Platform.

Abbreviation Cache := (CryptoKeyStore SA SS).

(** An [async] method of the class: from the key store it is called on to
    the settled promise and the key store it leaves. *)
Definition Async (A : Type) : Type := Cache -> Promise A * Cache.

Definition ret {A} (a : A) : Async A := fun cache => (Ok a, cache).

Definition throw {A} (e : BrowserAuthError) : Async A :=
  fun cache => (Throw (AuthError e), cache).

Definition bindAsync {A B} (m : Async A) (k : A -> Async B) : Async B :=
  fun cache =>
    match m cache with
    | (Ok a, cache') => k a cache'
    | (Throw e, cache') => (Throw e, cache')
    end.

(** [await] of a platform promise: its rejection is the method's. *)
Definition await {A} (m : Cap A) : Async A :=
  fun cache => (mapThrow Passed m, cache).

(** The calls on [this.cache.asymmetricKeys]. *)
Definition asymmetricKeys_getItem (key : string) : Async (option CachedKeyPair) :=
  fun cache => (Ok (getItem (asymmetricKeys cache) key), cache).

(** [await this.cache.asymmetricKeys.setItem(key, value)]: a rejected write
    is the method's rejection, and the partition is what the write left. *)
Definition asymmetricKeys_setItem (key : string) (value : CachedKeyPair) : Async unit :=
  fun cache =>
    let written := setItem (asymmetricKeys cache) key value in
    (mapThrow Passed written.2,
     {| asymmetricKeys := written.1; symmetricKeys := symmetricKeys cache |}).

Definition asymmetricKeys_removeItem (key : string) : Async unit :=
  fun cache =>
    (Ok tt, {| asymmetricKeys := removeItem (asymmetricKeys cache) key;
               symmetricKeys := symmetricKeys cache |}).

Definition asymmetricKeys_containsKey (key : string) : Async bool :=
  fun cache => (Ok (containsKey (asymmetricKeys cache) key), cache).

(** [Object.keys(this.cache)] *)
Definition cacheKeys (cache : Cache) : list string :=
  ["asymmetricKeys"; "symmetricKeys"].

(** [this.cache[name]] *)
Definition cacheProperty (cache : Cache) (name : string) : option (Partition SA SS) :=
  if String.eqb name "asymmetricKeys" then Some (AsymmetricPartition (asymmetricKeys cache))
  else if String.eqb name "symmetricKeys" then Some (SymmetricPartition (symmetricKeys cache))
  else None.

(** Modelled from the spec: the wipe behind [deleteDatabase()]. The class
    of a partition, [AsyncMemoryStorage], is not among the sources. By
    section 4.1 the wipe is one wipe of the underlying storage and drops the
    entries of both partitions; by section 6 that storage is one keyed store
    with the two namespaces. So the wipe goes through both namespaces, and it
    reports success when both were dropped. *)
Definition storageWipe (cache : Cache) : Cache * bool :=
  let wipedAsymmetric := deleteDatabase (asymmetricKeys cache) in
  let wipedSymmetric := deleteDatabase (symmetricKeys cache) in
  ({| asymmetricKeys := wipedAsymmetric.1; symmetricKeys := wipedSymmetric.1 |},
   wipedAsymmetric.2 && wipedSymmetric.2).

(** [databaseStorage.deleteDatabase()] on the partition picked from the
    cache: whichever partition it is called on, it is the wipe of the
    storage under both. *)
Definition partition_deleteDatabase (databaseStorage : Partition SA SS) : Async bool :=
  fun cache => (Ok (storageWipe cache).2, (storageWipe cache).1).

Notation "'let*' x ':=' m 'in' k" := (bindAsync m (fun x => k))
  (at level 10, x name, m at level 100, k at level 200) : async_scope.
Local Open Scope async_scope.

Definition generateKeyPairHelper (keyOptions : CryptoKeyOptions)
  : Async (option CryptoKeyPair) :=
  fun cache =>
    match generateKeyPair bc keyOptions EXTRACTABLE with
    | Ok keyPair => (Ok keyPair, cache)
    | Throw error =>
        let errorMessage :=
          match error with JsError message => Some message | JsNonError => None end in
        throw (KeyGenerationFailedError errorMessage) cache
    end.

Definition missingHalfMessage : string :=
  "Either the public or private key component is missing from the generated CryptoKeyPair".

(** The guard [if (!keyPair || !keyPair.publicKey || !keyPair.privateKey)];
    past it both halves are at hand. *)
Definition checkKeyPair (keyPair : option CryptoKeyPair) : Async (CryptoKey * CryptoKey) :=
  match keyPair with
  | Some {| pairPublicKey := Some pub; pairPrivateKey := Some priv |} => ret (pub, priv)
  | _ => throw (KeyGenerationFailedError (Some missingHalfMessage))
  end.

Definition hashString (plainText : string) : Async string :=
  let* hashBuffer := await (sha256Digest bc plainText) in
  let hashBytes := hashBuffer in
  ret (urlEncodeArr bc hashBytes).

Definition getPublicKeyThumbprint (request : SignedHttpRequestParameters)
    (keyType : option CryptoKeyTypes) : Async string :=
  let keyOptions :=
    match keyType with
    | Some StkJwk => RefreshTokenBinding bc
    | _ => AccessTokenBinding bc
    end in
  let* keyPair := generateKeyPairHelper keyOptions in
  let* halves := checkKeyPair keyPair in
  let* publicKeyJwk := await (exportJwk bc halves.1) in
  let pubKeyThumprintObj :=
    [("e", getField "e" publicKeyJwk);
     ("kty", getField "kty" publicKeyJwk);
     ("n", getField "n" publicKeyJwk)] in
  let publicJwkString := getJwkString bc pubKeyThumprintObj in
  let* publicJwkHash := hashString publicJwkString in
  let* privateKeyJwk := await (exportJwk bc halves.2) in
  let* unextractablePrivateKey :=
    await (importJwk bc keyOptions privateKeyJwk false (privateKeyUsage keyOptions)) in
  let* _ :=
    asymmetricKeys_setItem publicJwkHash
      {| privateKey := unextractablePrivateKey;
         publicKey := halves.1;
         requestMethod := resourceRequestMethod request;
         requestUri := resourceRequestUri request |} in
  ret publicJwkHash.

Definition removeTokenBindingKey (kid : string) : Async bool :=
  let* _ := asymmetricKeys_removeItem kid in
  let* keyFound := asymmetricKeys_containsKey kid in
  ret (negb keyFound).

Definition clearKeystore : Async bool :=
  fun cache =>
    let dataStoreNames := cacheKeys cache in
    match dataStoreNames !! 0%nat ≫= cacheProperty cache with
    | Some databaseStorage => partition_deleteDatabase databaseStorage cache
    | None => ret false cache
    end.

Definition signJwt (payload : JsFields) (kid : string) : Async string :=
  let* cachedKeyPair := asymmetricKeys_getItem kid in
  match cachedKeyPair with
  | None => throw SigningKeyNotFoundInStorageError
  | Some cachedKeyPair =>
      let* publicKeyJwk := await (exportJwk bc (publicKey cachedKeyPair)) in
      let publicKeyJwkString := getJwkString bc publicKeyJwk in
      let header :=
        JsObject [("alg", getField "alg" publicKeyJwk);
                  ("type", JsString CryptoKeyFormats_jwk)] in
      let encodedHeader := urlEncode bc (JSON_stringify bc header) in
      let* jwk := await (JSON_parse bc publicKeyJwkString) in
      let payload := setField "cnf" (JsObject [("jwk", jwk)]) payload in
      let encodedPayload := urlEncode bc (JSON_stringify bc (JsObject payload)) in
      let tokenString := (encodedHeader ++ "." ++ encodedPayload)%string in
      let tokenBuffer := stringToArrayBuffer bc tokenString in
      let* signatureBuffer :=
        await (sign bc (AccessTokenBinding bc) (privateKey cachedKeyPair) tokenBuffer) in
      let encodedSignature := urlEncodeArr bc signatureBuffer in
      ret (tokenString ++ "." ++ encodedSignature)%string
  end.

Definition getAsymmetricPublicKey (keyThumbprint : string) : Async string :=
  let* cachedKeyPair := asymmetricKeys_getItem keyThumbprint in
  match cachedKeyPair with
  | None => throw SigningKeyNotFoundInStorageError
  | Some cachedKeyPair =>
      let* publicKeyJwk := await (exportJwk bc (publicKey cachedKeyPair)) in
      ret (getJwkString bc publicKeyJwk)
  end.

(** The key options [getPublicKeyThumbprint] selects for a key type. *)
Definition keyOptionsFor (keyType : option CryptoKeyTypes) : CryptoKeyOptions :=
  match keyType with
  | Some StkJwk => RefreshTokenBinding bc
  | _ => AccessTokenBinding bc
  end.

(** The provider failed: [generateKeyPair] threw, returned nothing, or
    returned a pair without one of its halves. *)
Definition generationFails (r : Cap (option CryptoKeyPair)) : bool :=
  match r with
  | Throw _ => true
  | Ok None => true
  | Ok (Some keyPair) =>
      negb (bool_decide (is_Some (pairPublicKey keyPair))
            && bool_decide (is_Some (pairPrivateKey keyPair)))
  end.

(** The detail a failed generation is reported with: the message of the
    caught [Error], nothing for another thrown value, the fixed message of
    the guard for a missing half. *)
Definition generationFailure (r : Cap (option CryptoKeyPair)) : BrowserAuthError :=
  KeyGenerationFailedError
    match r with
    | Throw (JsError message) => Some message
    | Throw JsNonError => None
    | Ok _ => Some missingHalfMessage
    end.

(** No private key cached in the asymmetric partition can be exported. *)
Definition NonExtractableStore (cache : Cache) : Prop :=
  forall kid entry,
    getItem (asymmetricKeys cache) kid = Some entry ->
    extractable (privateKey entry) = false.

(** The stores the class reaches from [cache0] through its methods on the
    key store. *)
Inductive Reachable (cache0 : Cache) : Cache -> Prop :=
| reach_initial : Reachable cache0 cache0
| reach_getPublicKeyThumbprint cache request keyType :
    Reachable cache0 cache ->
    Reachable cache0 (getPublicKeyThumbprint request keyType cache).2
| reach_removeTokenBindingKey cache kid :
    Reachable cache0 cache ->
    Reachable cache0 (removeTokenBindingKey kid cache).2
| reach_clearKeystore cache :
    Reachable cache0 cache ->
    Reachable cache0 (clearKeystore cache).2
| reach_signJwt cache payload kid :
    Reachable cache0 cache ->
    Reachable cache0 (signJwt payload kid cache).2
| reach_getAsymmetricPublicKey cache keyThumbprint :
    Reachable cache0 cache ->
    Reachable cache0 (getAsymmetricPublicKey keyThumbprint cache).2.

End Methods.

End CryptoOps.

(** ** UrlString and the payload of signPopToken *)

Module PopTokenGenerator.
Import Js KeyStore CryptoOps.

(** The longest prefix of [s] without a character of [stop], and the rest. *)
Fixpoint breakAt (stop : ascii -> bool) (s : string) : string * string :=
  match s with
  | EmptyString => (EmptyString, EmptyString)
  | String c rest =>
      if stop c then (EmptyString, s)
      else let r := breakAt stop rest in (String c r.1, r.2)
  end.

Definition isOneOf (cs : list ascii) (c : ascii) : bool :=
  existsb (Ascii.eqb c) cs.

(** No character of [s] is a [stop] character. *)
Fixpoint avoids (stop : ascii -> bool) (s : string) : bool :=
  match s with
  | EmptyString => true
  | String c rest => negb (stop c) && avoids stop rest
  end.

(** [s] without its prefix [p], when it starts with [p]. *)
Fixpoint dropPrefix (p s : string) : option string :=
  match p, s with
  | EmptyString, _ => Some s
  | String a p', String b s' => if Ascii.eqb a b then dropPrefix p' s' else None
  | String _ _, EmptyString => None
  end.

Record IUri : Type := {
  Protocol : string;
  HostNameAndPort : string;
  AbsolutePath : string;
  QueryString : string;
  Hash : string;
}.

(** Modelled from the spec: [UrlString.getUrlComponents] is not among the
    sources. The spec names the components the payload uses: [u] the
    host:port, [p] the absolute path, and the query string without its
    leading [?]. The URL is split as RFC 3986, appendix B, splits it:
    scheme up to [:], authority after [//] up to [/?#], path up to [?#],
    query after [?] up to [#], fragment after [#]. *)
Definition getUrlComponents (url : string) : IUri :=
  let s0 := breakAt (isOneOf [":"; "/"; "?"; "#"]%char) url in
  let '(scheme, afterScheme) :=
    match s0.2 with
    | String ":" rest => if String.eqb s0.1 "" then ("", url) else (s0.1, rest)
    | _ => ("", url)
    end in
  let '(authority, afterAuthority) :=
    match dropPrefix "//" afterScheme with
    | Some rest => breakAt (isOneOf ["/"; "?"; "#"]%char) rest
    | None => ("", afterScheme)
    end in
  let '(path, afterPath) := breakAt (isOneOf ["?"; "#"]%char) afterAuthority in
  let '(query, afterQuery) :=
    match afterPath with
    | String "?" rest => breakAt (isOneOf ["#"]%char) rest
    | _ => ("", afterPath)
    end in
  let fragment :=
    match afterQuery with
    | String "#" rest => rest
    | _ => ""
    end in
  {| Protocol := scheme;
     HostNameAndPort := authority;
     AbsolutePath := path;
     QueryString := query;
     Hash := fragment |}.

(** Modelled from the spec: [PopTokenGenerator.signPopToken] is not among
    the sources (its tests are). Section 4.2, step 2: [at] the access token,
    [ts] the current unix seconds, [m], [u], [p], [q] from the resource
    method and the parsed resource URL, each [undefined] when the request has
    none, [q] the pair [[[], queryString]] when a URL is present, [nonce] the
    request's nonce or a freshly generated GUID, [client_claims] the
    request's claims as they are. *)
Definition signPopTokenPayload (nowSeconds : Z) (newGuid : string)
    (accessToken : string) (request : SignedHttpRequestParameters) : JsFields :=
  let resourceUrlComponents := getUrlComponents <$> resourceRequestUri request in
  [("at", JsString accessToken);
   ("ts", JsNumber nowSeconds);
   ("m", ofOptString (resourceRequestMethod request));
   ("u", ofOptString (HostNameAndPort <$> resourceUrlComponents));
   ("nonce", JsString (default newGuid (shrNonce request)));
   ("p", ofOptString (AbsolutePath <$> resourceUrlComponents));
   ("q", match resourceUrlComponents with
         | Some c => JsArray [JsArray []; JsString (QueryString c)]
         | None => JsUndefined
         end);
   ("client_claims", ofOptString (shrClaims request))].

End PopTokenGenerator.

(** ** BaseClient.sendPostRequest *)

Module BaseClient.
Import Js.

Abbreviation Headers := (list (string * string)).

(** [headers[name]] of a [Record<string, string>]. *)
Fixpoint header (name : string) (headers : Headers) : option string :=
  match headers with
  | [] => None
  | (k, v) :: rest => if String.eqb k name then Some v else header name rest
  end.

Record ServerAuthorizationTokenResponse : Type := {
  refresh_token : option string;
  error : option string;
  error_codes : option string;
  suberror : option string;
}.

Record NetworkResponse : Type := {
  headers : option Headers;
  body : ServerAuthorizationTokenResponse;
  status : Z;
}.

Record NetworkRequestOptions : Type := {
  optBody : string;
  optHeaders : Headers;
}.

Record AuthError : Type := {
  errorCode : string;
  errorMessage : string;
  subError : string;
}.

(** The values the [catch] of [sendPostRequest] tells apart with
    [instanceof]. *)
Inductive Thrown : Type :=
| ThrownNetworkError (error : AuthError) (httpStatus : option Z)
    (responseHeaders : option Headers)
| ThrownAuthError (e : AuthError)
| ThrownOther (t : JsThrown).

Abbreviation Promise := (Outcome Thrown).

(** The names of [HeaderNames] that the method reads. *)
Record HeaderNames : Type := {
  X_MS_HTTP_VERSION : string;
  X_MS_REQUEST_ID : string;
  CONTENT_TYPE : string;
  CONTENT_LENGTH : string;
}.

(** [ThrottlingUtils], as the method calls it: both run synchronously on the
    cache manager, and either may throw. *)
Record ThrottlingUtils (CacheManager RequestThumbprint : Type) : Type := {
  preProcess : CacheManager -> RequestThumbprint -> CacheManager * Outcome Thrown unit;
  postProcess :
    CacheManager -> RequestThumbprint -> NetworkResponse -> CacheManager * Outcome Thrown unit;
}.
Arguments preProcess {_ _} _ _ _.
Arguments postProcess {_ _} _ _ _ _.

(** What the method does to its collaborators, in order. *)
Inductive Event (RequestThumbprint : Type) : Type :=
| PreProcessCalled (thumbprint : RequestThumbprint)
| NetworkPost (tokenEndpoint : string) (options : NetworkRequestOptions)
| FieldsAdded (fields : JsFields) (correlationId : string)
| PostProcessCalled (thumbprint : RequestThumbprint) (response : NetworkResponse).
Arguments PreProcessCalled {_} _.
Arguments NetworkPost {_} _ _.
Arguments FieldsAdded {_} _ _.
Arguments PostProcessCalled {_} _ _.

Section SendPostRequest.
Context {CacheManager RequestThumbprint : Type}.
Variable throttling : ThrottlingUtils CacheManager RequestThumbprint.
Variable names : HeaderNames.
(** [this.networkClient.sendPostRequestAsync] *)
Variable sendPostRequestAsync : string -> NetworkRequestOptions -> Promise NetworkResponse.
(** [this.performanceClient?.addFields], absent when there is no client. *)
Variable performanceClient : option (JsFields -> string -> Outcome JsThrown unit).
(** [createClientAuthError(ClientAuthErrorCodes.networkError)] *)
Variable networkError : AuthError.

Abbreviation Trace := (list (Event RequestThumbprint)).

(** [headers[name] || ""] *)
Definition headerOrEmpty (name : string) (hs : Headers) : JsValue :=
  match header name hs with
  | Some v => if String.eqb v "" then JsString "" else JsString v
  | None => JsString ""
  end.

(** [headers[name] || undefined] *)
Definition headerOrUndefined (name : string) (hs : Headers) : JsValue :=
  match header name hs with
  | Some v => if String.eqb v "" then JsUndefined else JsString v
  | None => JsUndefined
  end.

Definition successFields (response : NetworkResponse) : JsFields :=
  let responseHeaders := default [] (headers response) in
  [("refreshTokenSize",
      JsNumber (default 0 (Z.of_nat ∘ String.length <$> refresh_token (body response))));
   ("httpVerToken", headerOrEmpty (X_MS_HTTP_VERSION names) responseHeaders);
   ("requestId", headerOrEmpty (X_MS_REQUEST_ID names) responseHeaders)].

Definition failureFields (responseHeaders : Headers) (httpStatus : option Z) : JsFields :=
  [("httpVerToken", headerOrEmpty (X_MS_HTTP_VERSION names) responseHeaders);
   ("requestId", headerOrEmpty (X_MS_REQUEST_ID names) responseHeaders);
   ("contentTypeHeader", headerOrUndefined (CONTENT_TYPE names) responseHeaders);
   ("contentLengthHeader", headerOrUndefined (CONTENT_LENGTH names) responseHeaders);
   ("httpStatus", match httpStatus with Some n => JsNumber n | None => JsUndefined end)].

(** [this.performanceClient?.addFields(fields, correlationId)]: nothing is
    called without a client. *)
Definition addFields (fields : JsFields) (correlationId : string)
  : Trace * Outcome Thrown unit :=
  match performanceClient with
  | None => ([], Ok tt)
  | Some add =>
      ([FieldsAdded fields correlationId],
       mapThrow ThrownOther (add fields correlationId))
  end.

(** The [catch] block: every path throws. *)
Definition onCatch (e : Thrown) (correlationId : string) : Trace * Thrown :=
  match e with
  | ThrownNetworkError error httpStatus responseHeaders =>
      match responseHeaders with
      | Some hs =>
          match addFields (failureFields hs httpStatus) correlationId with
          | (tr, Ok _) => (tr, ThrownAuthError error)
          | (tr, Throw e') => (tr, e')
          end
      | None => ([], ThrownAuthError error)
      end
  | ThrownAuthError e => ([], ThrownAuthError e)
  | ThrownOther _ => ([], ThrownAuthError networkError)
  end.

(** The [try] block: the POST, then the telemetry fields of the response. *)
Definition tryBlock (tokenEndpoint : string) (options : NetworkRequestOptions)
    (correlationId : string) : Trace * Promise NetworkResponse :=
  match sendPostRequestAsync tokenEndpoint options with
  | Ok response =>
      match addFields (successFields response) correlationId with
      | (tr, Ok _) => (NetworkPost tokenEndpoint options :: tr, Ok response)
      | (tr, Throw e) => (NetworkPost tokenEndpoint options :: tr, Throw e)
      end
  | Throw e => ([NetworkPost tokenEndpoint options], Throw e)
  end.

Definition sendPostRequest (cacheManager : CacheManager) (thumbprint : RequestThumbprint)
    (tokenEndpoint : string) (options : NetworkRequestOptions) (correlationId : string)
  : Trace * CacheManager * Promise NetworkResponse :=
  match preProcess throttling cacheManager thumbprint with
  | (cm, Throw e) => ([PreProcessCalled thumbprint], cm, Throw e)
  | (cm, Ok _) =>
      match tryBlock tokenEndpoint options correlationId with
      | (tr, Throw e) =>
          let '(tr', e') := onCatch e correlationId in
          (PreProcessCalled thumbprint :: tr ++ tr', cm, Throw e')
      | (tr, Ok response) =>
          match postProcess throttling cm thumbprint response with
          | (cm', Ok _) =>
              (PreProcessCalled thumbprint :: tr ++ [PostProcessCalled thumbprint response],
               cm', Ok response)
          | (cm', Throw e) =>
              (PreProcessCalled thumbprint :: tr ++ [PostProcessCalled thumbprint response],
               cm', Throw e)
          end
      end
  end.

End SendPostRequest.

(** *** A throttling gate for the examples *)

Record ThrottlingEntry : Type := {
  throttleTime : Z;
  entryError : option string;
  entryErrorCode : option string;
  entrySubError : option string;
}.

(** Modelled from the spec: [ThrottlingUtils] is not among the sources.
    Section 4.4: pre-flight looks the thumbprint up; an entry whose
    [throttleTime] has passed is deleted and the call goes on, any other
    entry aborts the call with the cached error fields; post-flight upserts
    an entry when the response has status 429, a status of 500 or more, or a
    [Retry-After] header, and leaves the cache as it is otherwise; it does
    not throw. The thumbprint is its cache key; [now] is the clock in
    seconds. *)
Definition specThrottling (now defaultBackoff : Z)
    (retryAfter : Headers -> option Z)
  : ThrottlingUtils (gmap string ThrottlingEntry) string := {|
  preProcess cm thumbprint :=
    match cm !! thumbprint with
    | Some entry =>
        if throttleTime entry <? now then (delete thumbprint cm, Ok tt)
        else (cm, Throw (ThrownAuthError
                {| errorCode := default "" (entryErrorCode entry);
                   errorMessage := default "" (entryError entry);
                   subError := default "" (entrySubError entry) |}))
    | None => (cm, Ok tt)
    end;
  postProcess cm thumbprint response :=
    let delay := retryAfter (default [] (headers response)) in
    (if (500 <=? status response) || (status response =? 429) || bool_decide (is_Some delay)
     then <[thumbprint := {| throttleTime := now + default defaultBackoff delay;
                             entryError := error (body response);
                             entryErrorCode := error_codes (body response);
                             entrySubError := suberror (body response) |}]> cm
     else cm,
     Ok tt);
|}.

(** Values for the examples. *)
Definition testNames : HeaderNames :=
  {| X_MS_HTTP_VERSION := "x-ms-httpver";
     X_MS_REQUEST_ID := "x-ms-request-id";
     CONTENT_TYPE := "Content-Type";
     CONTENT_LENGTH := "Content-Length" |}.

Definition testOptions : NetworkRequestOptions :=
  {| optBody := "grant_type=refresh_token";
     optHeaders := [("Content-Type", "application/x-www-form-urlencoded;charset=utf-8")] |}.

Definition testResponse : NetworkResponse :=
  {| headers := Some [("x-ms-request-id", "req-1")];
     body := {| refresh_token := Some "rt"; error := None; error_codes := None;
                suberror := None |};
     status := 200 |}.

Definition testNetworkError : AuthError :=
  {| errorCode := "network_error"; errorMessage := ""; subError := "" |}.

Definition throttledCache : gmap string ThrottlingEntry :=
  {["thumbprint-T" := {| throttleTime := 160;
                         entryError := Some "Too many requests";
                         entryErrorCode := Some "429";
                         entrySubError := None |}]}.

(** A gate over a cache that cannot be written: the post-flight update
    throws when the response carries a throttling signal. *)
Definition readOnlyThrottling (now : Z)
  : ThrottlingUtils (gmap string ThrottlingEntry) string := {|
  preProcess := preProcess (specThrottling now 60 (fun _ => None));
  postProcess cm thumbprint response :=
    if (500 <=? status response) || (status response =? 429)
    then (cm, Throw (ThrownOther (JsError "QuotaExceededError")))
    else (cm, Ok tt);
|}.

Definition throttlingResponse : NetworkResponse :=
  {| headers := None;
     body := {| refresh_token := None; error := Some "Too many requests";
                error_codes := Some "429"; suberror := None |};
     status := 429 |}.

End BaseClient.

(** ** NativeAuthStandardController.signIn *)

Module NativeAuth.
Import Js.

(** [NativeAuthError]: error code, description, correlation id. *)
Record NativeAuthError : Type := {
  errorName : string;
  errorDescription : string;
  errorCorrelationId : option string;
}.

(** The argument of [new UnexpectedError(errorData)], by the tests the
    constructor applies to it. *)
Inductive ErrorData : Type :=
| DataError (message : string)     (* [instanceof Error] *)
| DataString (s : string)          (* [typeof] is string *)
| DataObject (v : JsValue)         (* a non-null object *)
| DataOther.

Definition UnexpectedError (JSON_stringify : JsValue -> string)
    (errorData : ErrorData) (correlationId : option string) : NativeAuthError :=
  let errorDescription :=
    match errorData with
    | DataError message => message
    | DataString s => s
    | DataObject v => JSON_stringify v
    | DataOther => "An unexpected error occurred."
    end in
  {| errorName := "unexpected_error";
     errorDescription := errorDescription;
     errorCorrelationId := correlationId |}.

(** The errors of the flow: the invalid-argument error the guard creates,
    errors of this library, and whatever a rejected promise of the
    interaction client carries. *)
Inductive Thrown : Type :=
| InvalidArgumentError (argName : string) (correlationId : string)
| NativeAuthThrown (e : NativeAuthError)
| OtherThrown (t : JsThrown).

Abbreviation Promise := (Outcome Thrown).

Record SignInInputs : Type := {
  correlationId : option string;
  username : option string;
  password : option string;
  scopes : option (list string);
}.

Record SignInStartParams : Type := {
  startAuthority : string;
  startClientId : string;
  startCorrelationId : string;
  startChallengeTypes : list string;
  startScopes : list string;
  startUsername : string;
  startPassword : option string;
}.

Record SignInSubmitPasswordParams : Type := {
  submitAuthority : string;
  submitClientId : string;
  submitCorrelationId : string;
  submitChallengeTypes : list string;
  submitScopes : list string;
  submitContinuationToken : string;
  submitPassword_ : string;
}.

(** The result of [signInClient.start], by the [instanceof] tests on it. *)
Inductive StartResult : Type :=
| SignInWithContinuationTokenResult (continuationToken : string)
| SignInCodeSendResponse (continuationToken : string)
| UnknownStartResult.

(** [completedResult.authenticationResult.account] *)
Record CompletedResult : Type := {
  account : string;
}.

Record AccountInfo : Type := {
  infoAccount : string;
  infoCorrelationId : string;
}.

Inductive SignInState : Type :=
| SignInPasswordRequiredState (correlationId continuationToken : string)
    (scopes : option (list string))
| SignInCodeRequiredState (correlationId continuationToken : string)
    (scopes : option (list string)).

(** [ResultBase]: built by [new SignInResult(data?, state?)], or by
    [SignInResult.createWithError(error)], which keeps the error. *)
Inductive SignInResult : Type :=
| Result (data : option AccountInfo) (state : option SignInState)
| createWithError (error : Thrown).

Record NativeAuthConfig : Type := {
  authority : string;
  clientId : string;
  challengeTypes : option (list string);
}.

(** The collaborators of the controller: the interaction client's two calls
    and the GUID source of [browserCrypto]. *)
Record Collaborators : Type := {
  start : SignInStartParams -> Promise StartResult;
  submitPassword : SignInSubmitPasswordParams -> Promise CompletedResult;
  createNewGuid : string;
  JSON_stringify : JsValue -> string;
}.

Section Controller.
Variable config : NativeAuthConfig.
Variable env : Collaborators.

(** [actionOptions.correlationId || this.browserCrypto.createNewGuid()] *)
Definition getCorrelationId (actionCorrelationId : option string) : string :=
  if truthyStr actionCorrelationId then default "" actionCorrelationId
  else createNewGuid env.

(** The body of the [try] block; [username] is the name the guard before it
    found truthy. *)
Definition signInFlow (signInOptions : SignInInputs) (correlationId username : string)
  : Promise SignInResult :=
  let authorityUrl := authority config in
  let signInStartParams :=
    {| startAuthority := authorityUrl;
       startClientId := clientId config;
       startCorrelationId := correlationId;
       startChallengeTypes := default [] (challengeTypes config);
       startScopes := default [] (scopes signInOptions);
       startUsername := username;
       startPassword := password signInOptions |} in
  let* startResult := start env signInStartParams in
  match startResult with
  | SignInWithContinuationTokenResult continuationToken =>
      if negb (truthyStr (password signInOptions)) then
        Ok (Result None
              (Some (SignInPasswordRequiredState correlationId continuationToken
                       (scopes signInOptions))))
      else
        let signInSubmitPasswordParams :=
          {| submitAuthority := authorityUrl;
             submitClientId := clientId config;
             submitCorrelationId := correlationId;
             submitChallengeTypes := default [] (challengeTypes config);
             submitScopes := default [] (scopes signInOptions);
             submitContinuationToken := continuationToken;
             submitPassword_ := default "" (password signInOptions) |} in
        let* completedResult := submitPassword env signInSubmitPasswordParams in
        let accountManager :=
          {| infoAccount := account completedResult;
             infoCorrelationId := correlationId |} in
        Ok (Result (Some accountManager) None)
  | SignInCodeSendResponse continuationToken =>
      Ok (Result None
            (Some (SignInCodeRequiredState correlationId continuationToken
                     (scopes signInOptions))))
  | UnknownStartResult =>
      Throw (NativeAuthThrown
               (UnexpectedError (JSON_stringify env)
                  (DataString "Unknow SignInStartResult type") None))
  end.

Definition signIn (signInOptions : SignInInputs) : Promise SignInResult :=
  let correlationId := getCorrelationId (correlationId signInOptions) in
  if negb (truthyStr (username signInOptions)) then
    Ok (createWithError (InvalidArgumentError "username" correlationId))
  else
    match signInFlow signInOptions correlationId (default "" (username signInOptions)) with
    | Ok result => Ok result
    | Throw error => Ok (createWithError error)
    end.

End Controller.

End NativeAuth.

(** ** An in-memory platform for the examples *)

Module TestDouble.
Import Js KeyStore CryptoOps.

Definition base64urlAlphabet : list ascii :=
  list_ascii_of_string "ABCDEFGHIJKLMNOPQRSTUVWXYZabcdefghijklmnopqrstuvwxyz0123456789-_".

Definition sextet (n : N) : ascii := nth (N.to_nat n) base64urlAlphabet "A"%char.

(** Unpadded base64url of a byte sequence, three bytes to four characters. *)
Fixpoint base64url (bs : list N) : string :=
  match bs with
  | [] => ""
  | [a] => String (sextet (a / 4)) (String (sextet (a mod 4 * 16)) "")
  | [a; b] =>
      String (sextet (a / 4)) (String (sextet (a mod 4 * 16 + b / 16))
        (String (sextet (b mod 16 * 4)) ""))
  | a :: b :: c :: rest =>
      String (sextet (a / 4)) (String (sextet (a mod 4 * 16 + b / 16))
        (String (sextet (b mod 16 * 4 + c / 64)) (String (sextet (c mod 64))
          (base64url rest))))
  end%N.

Definition encodeBytes (bs : list byte) : string := base64url (Byte.to_N <$> bs).
Definition encodeString (s : string) : string := encodeBytes (list_byte_of_string s).

Definition quote : string := String (ascii_of_nat 34) EmptyString.

(** A small serializer: properties holding [undefined] are left out, an
    [undefined] array element prints as [null]; strings are not escaped. *)
Fixpoint stringify (v : JsValue) : string :=
  match v with
  | JsUndefined | JsNull => "null"
  | JsBool b => if b then "true" else "false"
  | JsNumber z => pretty z
  | JsString s => quote ++ s ++ quote
  | JsArray xs =>
      "[" ++ (fix items (l : list JsValue) : string :=
                match l with
                | [] => ""
                | [x] => stringify x
                | x :: rest => stringify x ++ "," ++ items rest
                end) xs ++ "]"
  | JsObject fields =>
      "{" ++ (fix props (first : bool) (l : list (string * JsValue)) : string :=
                match l with
                | [] => ""
                | (_, JsUndefined) :: rest => props first rest
                | (k, x) :: rest =>
                    (if first then "" else ",") ++ quote ++ k ++ quote ++ ":" ++ stringify x
                    ++ props false rest
                end) true fields ++ "}"
  end.

Definition rsaOptions : CryptoKeyOptions :=
  {| keyGenAlgorithm := "RSASSA-PKCS1-v1_5";
     keypairUsages := ["sign"; "verify"];
     privateKeyUsage := ["sign"] |}.

Definition testPublicJwk : JsFields :=
  [("alg", JsString "RS256"); ("e", JsString "AQAB"); ("ext", JsBool true);
   ("kty", JsString "RSA");
   ("n", JsString "sXchDaQebHnPiGvyDOAT4saGEUetSyo9MKLOoWFsueri23bOdgWp4Dy1Wl")].

Definition testPrivateJwk : JsFields :=
  testPublicJwk ++ [("d", JsString "VFCWOqXr8nvZNyaaJLXdnNPXZKRaWCjkU5Q2egQQpTBMwhprMzWzpR8Sxq")].

Definition testPublicKey : CryptoKey :=
  {| keyKind := PublicKind; extractable := true; usages := ["verify"];
     material := testPublicJwk |}.

Definition testPrivateKey (isExtractable : bool) : CryptoKey :=
  {| keyKind := PrivateKind; extractable := isExtractable; usages := ["sign"];
     material := testPrivateJwk |}.

(** The generated halves; [which] says what the provider returns. *)
Inductive Provider : Type :=
| WellBehaved
| Throws (t : JsThrown)
| ReturnsNothing
| OmitsPublic
| OmitsPrivate.

(** The platform of the examples. Keys carry their JWK; an export needs an
    extractable key, a signature a key with the [sign] usage. The digest and
    the signature are stand-ins (the reversed input), the encoders are
    base64url. *)
Definition testPlatform (which : Provider) : Platform := {|
  generateKeyPair _ isExtractable :=
    match which with
    | WellBehaved =>
        Ok (Some {| pairPublicKey := Some testPublicKey;
                    pairPrivateKey := Some (testPrivateKey isExtractable) |})
    | Throws t => Throw t
    | ReturnsNothing => Ok None
    | OmitsPublic =>
        Ok (Some {| pairPublicKey := None;
                    pairPrivateKey := Some (testPrivateKey isExtractable) |})
    | OmitsPrivate =>
        Ok (Some {| pairPublicKey := Some testPublicKey; pairPrivateKey := None |})
    end;
  exportJwk key :=
    if extractable key then Ok (material key)
    else Throw (JsError "key is not extractable");
  importJwk _ jwk isExtractable keyUsages :=
    Ok {| keyKind := PrivateKind; extractable := isExtractable; usages := keyUsages;
          material := jwk |};
  sign _ key data :=
    if bool_decide ("sign" ∈ usages key) then Ok (rev data)
    else Throw (JsError "key cannot sign");
  sha256Digest plainText := Ok (rev (list_byte_of_string plainText));
  getJwkString jwk := stringify (JsObject jwk);
  urlEncode := encodeString;
  urlEncodeArr := encodeBytes;
  stringToArrayBuffer := list_byte_of_string;
  JSON_stringify := stringify;
  JSON_parse text :=
    if String.eqb text (stringify (JsObject testPublicJwk)) then Ok (JsObject testPublicJwk)
    else Throw (JsError "Unexpected token");
  AccessTokenBinding := rsaOptions;
  RefreshTokenBinding := rsaOptions;
|}.

Definition emptyStore : CryptoKeyStore (gmap string CachedKeyPair) (gmap string CryptoKey) :=
  {| asymmetricKeys := ∅; symmetricKeys := ∅ |}.

Definition testRequest : SignedHttpRequestParameters :=
  {| resourceRequestMethod := Some "POST";
     resourceRequestUri := Some "https://resource.example/api?foo=bar";
     shrClaims := None;
     shrNonce := Some "nonce-1" |}.

Definition testCachedKeyPair : CachedKeyPair :=
  {| publicKey := testPublicKey;
     privateKey := testPrivateKey false;
     requestMethod := Some "POST";
     requestUri := Some "https://resource.example/api?foo=bar" |}.

Definition testSymmetricKey : CryptoKey :=
  {| keyKind := SecretKind; extractable := false; usages := ["decrypt"];
     material := [("k", JsString "c2Vzc2lvbi10cmFuc3BvcnQta2V5"); ("kty", JsString "oct")] |}.

(** A store with one entry in each partition. *)
Definition storeWithBoth : CryptoKeyStore (gmap string CachedKeyPair) (gmap string CryptoKey) :=
  {| asymmetricKeys := {["kid-1" := testCachedKeyPair]};
     symmetricKeys := {["stk-1" := testSymmetricKey]} |}.

(** A partition whose backend refuses to drop anything: removals have no
    effect and the wipe reports failure. *)
Record StuckStorage (V : Type) : Type := { stuckItems : gmap string V }.
Arguments stuckItems {V} _.

#[export] Instance Stuck (V : Type) : AsyncStorage V (StuckStorage V) := {|
  getItem s k := stuckItems s !! k;
  setItem s k v := ({| stuckItems := <[k := v]> (stuckItems s) |}, Ok tt);
  removeItem s k := s;
  containsKey s k := bool_decide (is_Some (stuckItems s !! k));
  deleteDatabase s := (s, false);
|}.

Definition stuckStore : CryptoKeyStore (StuckStorage CachedKeyPair) (StuckStorage CryptoKey) :=
  {| asymmetricKeys := {| stuckItems := {["kid-1" := testCachedKeyPair]} |};
     symmetricKeys := {| stuckItems := ∅ |} |}.

(** The store after one [getPublicKeyThumbprint] on the empty store, and
    the thumbprint that call returns. *)
Definition generatedStore : CryptoKeyStore (gmap string CachedKeyPair) (gmap string CryptoKey) :=
  (getPublicKeyThumbprint (testPlatform WellBehaved) testRequest None emptyStore).2.

Definition generatedKid : string :=
  match (getPublicKeyThumbprint (testPlatform WellBehaved) testRequest None emptyStore).1 with
  | Ok kid => kid
  | Throw _ => ""
  end.

Definition testPayload : JsFields :=
  [("at", JsString "access-token"); ("ts", JsNumber 1700000000);
   ("nonce", JsString "nonce-1")].

End TestDouble.


(** ** BaseClient: request headers and the token endpoint call *)

Module TokenEndpoint.
Import Js BaseClient.

(** The two members of [CcsCredentialType] the [switch] names. *)
Inductive CcsCredentialType : Type := HOME_ACCOUNT_ID | UPN.

Record CcsCredential : Type := {
  credential : string;
  ccsType : CcsCredentialType;
}.

Record ClientInfo : Type := {
  uid : string;
  utid : string;
}.

(** [headers[name] = value] on a [Record<string, string>]. *)
Fixpoint setHeader (name value : string) (hs : Headers) : Headers :=
  match hs with
  | [] => [(name, value)]
  | (k, v) :: rest =>
      if String.eqb k name then (k, value) :: rest
      else (k, v) :: setHeader name value rest
  end.

Section CreateTokenRequestHeaders.
(** [HeaderNames.CONTENT_TYPE], [HeaderNames.CCS_HEADER] and
    [Constants.URL_FORM_CONTENT_TYPE] *)
Variable contentTypeName ccsHeaderName urlFormContentType : string.
(** [buildClientInfoFromHomeAccountId]; it may throw. *)
Variable buildClientInfoFromHomeAccountId : string -> Outcome JsThrown ClientInfo.
(** [this.config.systemOptions.preventCorsPreflight] *)
Variable preventCorsPreflight : bool.

(** The headers, and what [logger.verbose] was given when the home account
    id could not be parsed. *)
Definition createTokenRequestHeaders (ccsCred : option CcsCredential)
  : Headers * list JsThrown :=
  let headers := setHeader contentTypeName urlFormContentType [] in
  match negb preventCorsPreflight, ccsCred with
  | true, Some cred =>
      match ccsType cred with
      | HOME_ACCOUNT_ID =>
          match buildClientInfoFromHomeAccountId (credential cred) with
          | Ok clientInfo =>
              (setHeader ccsHeaderName
                 ("Oid:" ++ uid clientInfo ++ "@" ++ utid clientInfo) headers, [])
          | Throw e => (headers, [e])
          end
      | UPN => (setHeader ccsHeaderName ("UPN: " ++ credential cred) headers, [])
      end
  | _, _ => (headers, [])
  end.

End CreateTokenRequestHeaders.

(** The two calls the class makes on [this.performanceClient]. *)
Record PerformanceClient : Type := {
  perfAddFields : JsFields -> string -> Outcome JsThrown unit;
  perfAddQueueMeasurement : string -> string -> Outcome JsThrown unit;
}.

(** What [executePostToTokenEndpoint] does, in order: its own calls around
    the events of [sendPostRequest]. *)
Inductive TokenEvent (RequestThumbprint : Type) : Type :=
| QueueMeasurementAdded (queuedEvent correlationId : string)
| Sent (e : Event RequestThumbprint)
| TelemetryCacheCleared.
Arguments QueueMeasurementAdded {_} _ _.
Arguments Sent {_} _.
Arguments TelemetryCacheCleared {_}.

Section ExecutePost.
Context {CacheManager RequestThumbprint : Type}.
Variable throttling : ThrottlingUtils CacheManager RequestThumbprint.
Variable names : HeaderNames.
Variable sendPostRequestAsync : string -> NetworkRequestOptions -> Promise NetworkResponse.
Variable performanceClient : option PerformanceClient.
Variable networkError : AuthError.
(** Whether [this.config.serverTelemetryManager] is set. *)
Variable serverTelemetryManager : bool.

(** [if (queuedEvent) this.performanceClient?.addQueueMeasurement(...)] *)
Definition queueMeasurement (queuedEvent : option string) (correlationId : string)
  : list (TokenEvent RequestThumbprint) * Outcome Thrown unit :=
  if truthyStr queuedEvent then
    match performanceClient with
    | Some client =>
        ([QueueMeasurementAdded (default "" queuedEvent) correlationId],
         mapThrow ThrownOther
           (perfAddQueueMeasurement client (default "" queuedEvent) correlationId))
    | None => ([], Ok tt)
    end
  else ([], Ok tt).

(** [response.status < 500 && response.status !== 429], after the check
    that a telemetry manager is configured. *)
Definition clearsTelemetry (response : NetworkResponse) : bool :=
  serverTelemetryManager && (status response <? 500) && negb (status response =? 429).

Definition executePostToTokenEndpoint (cacheManager : CacheManager)
    (tokenEndpoint queryString : string) (requestHeaders : Headers)
    (thumbprint : RequestThumbprint) (correlationId : string)
    (queuedEvent : option string)
  : list (TokenEvent RequestThumbprint) * CacheManager * Promise NetworkResponse :=
  match queueMeasurement queuedEvent correlationId with
  | (tr0, Throw e) => (tr0, cacheManager, Throw e)
  | (tr0, Ok _) =>
      match sendPostRequest throttling names sendPostRequestAsync
              (perfAddFields <$> performanceClient) networkError
              cacheManager thumbprint tokenEndpoint
              {| optBody := queryString; optHeaders := requestHeaders |}
              correlationId with
      | (tr, cm, Throw e) => ((tr0 ++ (Sent <$> tr))%list, cm, Throw e)
      | (tr, cm, Ok response) =>
          if clearsTelemetry response then
            ((tr0 ++ (Sent <$> tr) ++ [TelemetryCacheCleared])%list, cm, Ok response)
          else ((tr0 ++ (Sent <$> tr))%list, cm, Ok response)
      end
  end.

End ExecutePost.

(** The error a caller of [sendPostRequest] is left with for what the
    network client threw: the error a [NetworkError] wraps, the [AuthError]
    itself, the client's network error for anything else. *)
Definition unwrapped (networkError : AuthError) (e : Thrown) : AuthError :=
  match e with
  | ThrownNetworkError error _ _ => error
  | ThrownAuthError a => a
  | ThrownOther _ => networkError
  end.

(** An event of the performance client. *)
Definition isTelemetry {RequestThumbprint : Type} (ev : Event RequestThumbprint) : Prop :=
  exists fields correlationId, ev = FieldsAdded fields correlationId.

(** Values for the examples. *)
Definition testBuildClientInfo (homeAccountId : string) : Outcome JsThrown ClientInfo :=
  if String.eqb homeAccountId "uid-1.utid-1" then Ok {| uid := "uid-1"; utid := "utid-1" |}
  else Throw (JsError "ClientInfo could not be decoded").

Definition failingTelemetry : PerformanceClient :=
  {| perfAddFields _ _ := Throw (JsError "telemetry unavailable");
     perfAddQueueMeasurement _ _ := Ok tt |}.

End TokenEndpoint.

(** ** NativeAuth: the other actions, and the public client application *)

Module NativeAuthActions.
Import Js NativeAuth.

(** What [signUp] and [resetPassword] read of their inputs. *)
Record UsernameInputs : Type := {
  actionCorrelationId : option string;
  actionUsername : option string;
}.

(** A result built by [createWithError] on [SignUpResult] or
    [ResetPasswordStartResult]. *)
Inductive ErrorResult : Type :=
| resultWithError (error : Thrown).

Section Controller.
Variable env : Collaborators.

(** [new Error(`Method not implemented with Parameter ${correlationId}.`)] *)
Definition notImplemented (correlationId : string) : Thrown :=
  OtherThrown (JsError ("Method not implemented with Parameter " ++ correlationId ++ ".")).

Definition getCurrentAccount (getAccountCorrelationId : option string) : Promise ErrorResult :=
  let correlationId := getCorrelationId env getAccountCorrelationId in
  Throw (notImplemented correlationId).

Definition signUp (signUpOptions : UsernameInputs) : Promise ErrorResult :=
  let correlationId := getCorrelationId env (actionCorrelationId signUpOptions) in
  if negb (truthyStr (actionUsername signUpOptions)) then
    Ok (resultWithError (InvalidArgumentError "username" correlationId))
  else Throw (notImplemented correlationId).

Definition resetPassword (resetPasswordOptions : UsernameInputs) : Promise ErrorResult :=
  let correlationId := getCorrelationId env (actionCorrelationId resetPasswordOptions) in
  if negb (truthyStr (actionUsername resetPasswordOptions)) then
    Ok (resultWithError (InvalidArgumentError "username" correlationId))
  else Throw (notImplemented correlationId).

End Controller.

(** A call of a method that is not [async]: it throws before it returns, or
    returns a promise. *)
Inductive Call (A : Type) : Type :=
| Threw (message : string)
| Returned (promise : Promise A).
Arguments Threw {A} message.
Arguments Returned {A} promise.

(** A controller handed to the constructor, by its [signIn]. *)
Record INativeAuthStandardController : Type := {
  injectedSignIn : SignInInputs -> Promise SignInResult;
}.

(** The application object: the controller the base class was given
    ([controller || nativeAuthController]) and the field
    [nativeAuthController], a [NativeAuthStandardController] over the
    configuration. *)
Record NativeAuthPublicClientApplication : Type := {
  baseController : INativeAuthStandardController;
  nativeAuthController : NativeAuthConfig * Collaborators;
}.

Section Application.
(** The collaborators a [NativeAuthStandardController] builds for itself. *)
Variable env : Collaborators.

Definition construct (config : NativeAuthConfig)
    (controller : option INativeAuthStandardController)
  : NativeAuthPublicClientApplication :=
  let nativeAuthController := (config, env) in
  {| baseController :=
       default {| injectedSignIn := signIn config env |} controller;
     nativeAuthController := nativeAuthController |}.

(** [NativeAuthPublicClientApplication.create(config)] *)
Definition create (config : NativeAuthConfig) : NativeAuthPublicClientApplication :=
  construct config None.

(** [`${options}`] of an options object. *)
Definition objectToString : string := "[object Object]".

Definition appSignIn (app : NativeAuthPublicClientApplication)
    (signInOptions : SignInInputs) : Call SignInResult :=
  Returned (signIn (nativeAuthController app).1 (nativeAuthController app).2 signInOptions).

Definition appGetCurrentAccount (app : NativeAuthPublicClientApplication) : Call ErrorResult :=
  Threw ("Method not implemented with parameter " ++ objectToString).

Definition appSignUp (app : NativeAuthPublicClientApplication) : Call ErrorResult :=
  Threw ("Method not implemented with parameter " ++ objectToString).

Definition appResetPassword (app : NativeAuthPublicClientApplication) : Call ErrorResult :=
  Threw ("Method not implemented with parameter " ++ objectToString).

End Application.

(** Values for the examples. *)
Definition testConfig : NativeAuthConfig :=
  {| authority := "https://login.example/tenant";
     clientId := "test-client-id";
     challengeTypes := Some ["password"; "oob"] |}.

Definition testAccount : CompletedResult := {| account := "user@example.com" |}.

(** An interaction client that asks for the password of [user@example.com]
    and accepts [secret]. *)
Definition testClient : Collaborators :=
  {| start params :=
       if String.eqb (startUsername params) "user@example.com"
       then Ok (SignInWithContinuationTokenResult "token-1")
       else if String.eqb (startUsername params) "code@example.com"
       then Ok (SignInCodeSendResponse "token-2")
       else Throw (OtherThrown (JsError "user_not_found"));
     submitPassword params :=
       if String.eqb (submitPassword_ params) "secret"
          && String.eqb (submitContinuationToken params) "token-1"
       then Ok testAccount
       else Throw (OtherThrown (JsError "invalid_grant"));
     createNewGuid := "guid-1";
     JSON_stringify := fun _ => "{}" |}.

(** The same client with its network down. *)
Definition offlineClient : Collaborators :=
  {| start _ := Throw (OtherThrown (JsError "network down"));
     submitPassword _ := Throw (OtherThrown (JsError "network down"));
     createNewGuid := "guid-1";
     JSON_stringify := fun _ => "{}" |}.

End NativeAuthActions.

(** ** More platforms and stores for the examples *)

Module FaultyPlatforms.
Import Js KeyStore CryptoOps TestDouble.

(** A partition that holds what it is given in memory but cannot persist
    it: the value can be read back, yet the write is rejected. *)
Record UnpersistedStorage (V : Type) : Type := { heldItems : gmap string V }.
Arguments heldItems {V} _.

#[export] Instance Unpersisted (V : Type) : AsyncStorage V (UnpersistedStorage V) := {|
  getItem s k := heldItems s !! k;
  setItem s k v :=
    ({| heldItems := <[k := v]> (heldItems s) |}, Throw (JsError "QuotaExceededError"));
  removeItem s k := {| heldItems := delete k (heldItems s) |};
  containsKey s k := bool_decide (is_Some (heldItems s !! k));
  deleteDatabase s := ({| heldItems := ∅ |}, true);
|}.

Definition unpersistedStore
  : CryptoKeyStore (UnpersistedStorage CachedKeyPair) (UnpersistedStorage CryptoKey) :=
  {| asymmetricKeys := {| heldItems := ∅ |}; symmetricKeys := {| heldItems := ∅ |} |}.

(** The well-behaved platform, except that a key cannot be imported. *)
Definition importRejecting : Platform :=
  let good := testPlatform WellBehaved in
  {| generateKeyPair := generateKeyPair good;
     exportJwk := exportJwk good;
     importJwk _ _ _ _ := Throw (JsError "DataError");
     sign := sign good;
     sha256Digest := sha256Digest good;
     getJwkString := getJwkString good;
     urlEncode := urlEncode good;
     urlEncodeArr := urlEncodeArr good;
     stringToArrayBuffer := stringToArrayBuffer good;
     JSON_stringify := JSON_stringify good;
     JSON_parse := JSON_parse good;
     AccessTokenBinding := AccessTokenBinding good;
     RefreshTokenBinding := RefreshTokenBinding good |}.

End FaultyPlatforms.

(** * Properties *)

(** ** Facts about values and the key store *)

Module KeyStoreFacts.
Import Js KeyStore.

Lemma getField_setField_eq name v fields :
  getField name (setField name v fields) = v.
Proof.
  induction fields as [|[k w] rest IH]; simpl.
  - by rewrite String.eqb_refl.
  - destruct (String.eqb k name) eqn:E; simpl; rewrite E; [done | exact IH].
Qed.

Lemma append_assoc (a b c : string) : (a ++ b) ++ c = a ++ (b ++ c).
Proof.
  induction a as [|x a IH]; [reflexivity|].
  change (String x ((a ++ b) ++ c) = String x (a ++ (b ++ c))). by rewrite IH.
Qed.

Lemma splitOn_lacks sep s : lacks sep s = true -> splitOn sep s = [s].
Proof.
  induction s as [|c rest IH]; simpl; [done|].
  intros [Hc Hrest]%andb_true_iff. apply negb_true_iff in Hc.
  by rewrite Hc, (IH Hrest).
Qed.

Lemma splitOn_app sep a b :
  lacks sep a = true ->
  splitOn sep (a ++ String sep b) = a :: splitOn sep b.
Proof.
  induction a as [|c rest IH]; simpl.
  - intros _. by rewrite Ascii.eqb_refl.
  - intros [Hc Hrest]%andb_true_iff. apply negb_true_iff in Hc.
    by rewrite Hc, (IH Hrest).
Qed.

Lemma MemoryStorage_contract (V : Type) : StorageContract (MemoryStorage V).
Proof.
  split; simpl.
  - intros s k v k' _. apply lookup_insert.
  - intros s k v k'. destruct (decide (k' = k)) as [->|Hne].
    + right. split; [done|]. apply lookup_insert_eq.
    + left. by apply lookup_insert_ne.
  - intros s k k'. apply lookup_delete.
  - intros s k. apply bool_decide_eq_true.
  - intros s k _. apply lookup_empty.
  - intros s k v H. by rewrite lookup_empty in H.
Qed.

End KeyStoreFacts.

(** ** CryptoOps: the key store operations *)

Module CryptoOpsFacts.
Import Js KeyStore CryptoOps TestDouble KeyStoreFacts.

Section AnyStorage.
Context {SA SS : Type}.
Context {StA : AsyncStorage CachedKeyPair SA} {StS : AsyncStorage CryptoKey SS}.
Implicit Types cache : CryptoKeyStore SA SS.

(** [clearKeystore] makes one [deleteDatabase] call, on the partition
    [Object.keys] lists first, and resolves with what that call returned. *)
Lemma clearKeystore_run cache :
  clearKeystore cache = (Ok (storageWipe cache).2, (storageWipe cache).1).
Proof. reflexivity. Qed.

(** [removeTokenBindingKey] removes, then resolves with the negated
    [containsKey] of the partition after the removal. *)
Lemma removeTokenBindingKey_run cache kid :
  removeTokenBindingKey kid cache =
    (Ok (negb (containsKey (removeItem (asymmetricKeys cache) kid) kid)),
     {| asymmetricKeys := removeItem (asymmetricKeys cache) kid;
        symmetricKeys := symmetricKeys cache |}).
Proof. reflexivity. Qed.

Lemma negb_containsKey_iff_absent (s : SA) kid :
  (forall s k, containsKey s k = true <-> is_Some (getItem (V := CachedKeyPair) (S := SA) s k)) ->
  negb (containsKey s kid) = true <-> getItem s kid = None.
Proof.
  intros Hc. rewrite negb_true_iff, <- not_true_iff_false, Hc, <- eq_None_not_Some. done.
Qed.

(** C1. [clearKeystore] resolves with the boolean of the wipe of the
    underlying storage. When that wipe reports success, no thumbprint is
    found any more in either partition, whatever the partitions held
    before; and whatever it reports, the wipe puts no entry into a
    partition. *)
Theorem clearKeystore_empties_both cache :
  StorageContract StA ->
  StorageContract StS ->
  (clearKeystore cache).1 = Ok (storageWipe cache).2
  /\ ((clearKeystore cache).1 = Ok true ->
      forall thumbprint,
        getItem (asymmetricKeys (clearKeystore cache).2) thumbprint = None
        /\ getItem (symmetricKeys (clearKeystore cache).2) thumbprint = None)
  /\ (forall thumbprint entry,
        getItem (asymmetricKeys (clearKeystore cache).2) thumbprint = Some entry ->
        getItem (asymmetricKeys cache) thumbprint = Some entry)
  /\ (forall thumbprint key,
        getItem (symmetricKeys (clearKeystore cache).2) thumbprint = Some key ->
        getItem (symmetricKeys cache) thumbprint = Some key).
Proof.
  intros CA CS. rewrite clearKeystore_run. unfold storageWipe. cbn [fst snd].
  split_and!.
  - reflexivity.
  - intros [= [Ha Hs]%andb_true_iff] thumbprint. cbn [asymmetricKeys symmetricKeys].
    split; [by apply (get_after_wipe _ CA) | by apply (get_after_wipe _ CS)].
  - intros thumbprint entry. cbn [asymmetricKeys]. apply (wipe_adds_nothing _ CA).
  - intros thumbprint key. cbn [symmetricKeys]. apply (wipe_adds_nothing _ CS).
Qed.

(** C2. [removeTokenBindingKey kid] resolves with a boolean, and that
    boolean is [true] exactly when a lookup of [kid] in the asymmetric
    partition finds nothing afterwards: on a storage whose removal fails
    the key is still found and the method resolves with [false]. The method
    does nothing to the store but the one [removeItem] call. On a storage
    whose [removeItem] removes, as the key store contract has it, the key is
    no longer found, the method resolves with [true], and other thumbprints
    are as they were. (The storage's [containsKey] is taken to answer as
    its [getItem] does.) *)
Theorem removeTokenBindingKey_removes cache kid :
  (forall (s : SA) k, containsKey s k = true <-> is_Some (getItem s k)) ->
  exists removed,
    (removeTokenBindingKey kid cache).1 = Ok removed
    /\ (removed = true <->
        getItem (asymmetricKeys (removeTokenBindingKey kid cache).2) kid = None)
    /\ asymmetricKeys (removeTokenBindingKey kid cache).2
       = removeItem (asymmetricKeys cache) kid
    /\ symmetricKeys (removeTokenBindingKey kid cache).2 = symmetricKeys cache
    /\ ((forall (s : SA) k k',
           getItem (removeItem s k) k' = if decide (k = k') then None else getItem s k') ->
        removed = true
        /\ getItem (asymmetricKeys (removeTokenBindingKey kid cache).2) kid = None
        /\ forall k, k <> kid ->
             getItem (asymmetricKeys (removeTokenBindingKey kid cache).2) k
             = getItem (asymmetricKeys cache) k).
Proof.
  intros Hcontains. rewrite removeTokenBindingKey_run. eexists. split; [reflexivity|].
  cbn [fst snd asymmetricKeys symmetricKeys].
  assert (Hiff : negb (containsKey (removeItem (asymmetricKeys cache) kid) kid) = true
                 <-> getItem (removeItem (asymmetricKeys cache) kid) kid = None)
    by by apply negb_containsKey_iff_absent.
  split_and!; try done.
  intros Hremove.
  assert (Hgone : getItem (removeItem (asymmetricKeys cache) kid) kid = None).
  { rewrite Hremove. by rewrite decide_True. }
  split_and!; [by apply Hiff | done |].
  intros k Hk. rewrite Hremove. by rewrite decide_False.
Qed.

Variable bc : Platform.

(** The entry [getPublicKeyThumbprint] writes for a generated public key
    and the private key imported again. *)
Abbreviation cachedEntry request pub unextractable :=
  {| privateKey := unextractable;
     publicKey := pub;
     requestMethod := resourceRequestMethod request;
     requestUri := resourceRequestUri request |}.

(** *** What a run of [getPublicKeyThumbprint] went through *)

(** A run whose platform calls all resolved reaches the write: it resolves
    with the thumbprint when the write resolves and rejects with the
    rejection of the write otherwise; the asymmetric partition is what the
    write left. *)
Lemma getPublicKeyThumbprint_write cache request keyType
    pub priv publicKeyJwk digest privateKeyJwk unextractable :
  generateKeyPair bc (keyOptionsFor bc keyType) EXTRACTABLE
    = Ok (Some {| pairPublicKey := Some pub; pairPrivateKey := Some priv |}) ->
  exportJwk bc pub = Ok publicKeyJwk ->
  sha256Digest bc
    (getJwkString bc [("e", getField "e" publicKeyJwk);
                      ("kty", getField "kty" publicKeyJwk);
                      ("n", getField "n" publicKeyJwk)]) = Ok digest ->
  exportJwk bc priv = Ok privateKeyJwk ->
  importJwk bc (keyOptionsFor bc keyType) privateKeyJwk false
    (privateKeyUsage (keyOptionsFor bc keyType)) = Ok unextractable ->
  getPublicKeyThumbprint bc request keyType cache
  = (match (setItem (asymmetricKeys cache) (urlEncodeArr bc digest)
              (cachedEntry request pub unextractable)).2 with
     | Ok _ => Ok (urlEncodeArr bc digest)
     | Throw t => Throw (Passed t)
     end,
     {| asymmetricKeys :=
          (setItem (asymmetricKeys cache) (urlEncodeArr bc digest)
             (cachedEntry request pub unextractable)).1;
        symmetricKeys := symmetricKeys cache |}).
Proof.
  intros Hgen Hpub Hsha Hpriv Himp.
  unfold getPublicKeyThumbprint, hashString, generateKeyPairHelper, bindAsync, await,
    asymmetricKeys_setItem, ret.
  fold (keyOptionsFor bc keyType). rewrite Hgen. cbn [checkKeyPair ret fst snd].
  rewrite Hpub. cbn [mapThrow fst snd]. rewrite Hsha. cbn [mapThrow fst snd].
  rewrite Hpriv. cbn [mapThrow]. rewrite Himp. cbn [mapThrow].
  by destruct (setItem _ _ _) as [written [[]|t]].
Qed.

(** A run either stops before the write, with the key store as it was, or
    has all its platform calls resolved. Before the write it rejects with
    the key-generation-failed error when the provider's pair was unusable,
    and otherwise with the rejection of the platform call that failed. *)
Lemma getPublicKeyThumbprint_inv cache request keyType :
  (exists e,
     getPublicKeyThumbprint bc request keyType cache = (Throw e, cache)
     /\ if generationFails (generateKeyPair bc (keyOptionsFor bc keyType) EXTRACTABLE)
        then e = AuthError
                   (generationFailure
                      (generateKeyPair bc (keyOptionsFor bc keyType) EXTRACTABLE))
        else exists t,
               e = Passed t
               /\ ((exists key, exportJwk bc key = Throw t)
                   \/ (exists text, sha256Digest bc text = Throw t)
                   \/ (exists jwk, importJwk bc (keyOptionsFor bc keyType) jwk false
                                     (privateKeyUsage (keyOptionsFor bc keyType))
                                   = Throw t)))
  \/ (exists pub priv publicKeyJwk digest privateKeyJwk unextractable,
        generateKeyPair bc (keyOptionsFor bc keyType) EXTRACTABLE
          = Ok (Some {| pairPublicKey := Some pub; pairPrivateKey := Some priv |})
        /\ exportJwk bc pub = Ok publicKeyJwk
        /\ sha256Digest bc
             (getJwkString bc [("e", getField "e" publicKeyJwk);
                               ("kty", getField "kty" publicKeyJwk);
                               ("n", getField "n" publicKeyJwk)]) = Ok digest
        /\ exportJwk bc priv = Ok privateKeyJwk
        /\ importJwk bc (keyOptionsFor bc keyType) privateKeyJwk false
             (privateKeyUsage (keyOptionsFor bc keyType)) = Ok unextractable).
Proof.
  unfold getPublicKeyThumbprint, hashString, generateKeyPairHelper, bindAsync, await,
    asymmetricKeys_setItem, ret, throw, generationFails, generationFailure.
  fold (keyOptionsFor bc keyType).
  destruct (generateKeyPair bc _ EXTRACTABLE) as [[[[pub|] [priv|]]|]|[m|]] eqn:Hgen;
    simpl; try (left; eexists; split; reflexivity).
  destruct (exportJwk bc pub) as [publicKeyJwk|t] eqn:Hpub; simpl;
    [|left; eexists; split; [reflexivity|]; eauto 6].
  destruct (sha256Digest bc _) as [digest|t] eqn:Hsha; simpl;
    [|left; eexists; split; [reflexivity|]; eauto 6].
  destruct (exportJwk bc priv) as [privateKeyJwk|t] eqn:Hpriv; simpl;
    [|left; eexists; split; [reflexivity|]; eauto 6].
  destruct (importJwk bc _ privateKeyJwk false _) as [unext|t] eqn:Himp; simpl;
    [|left; eexists; split; [reflexivity|]; eauto 7].
  right. by exists pub, priv, publicKeyJwk, digest, privateKeyJwk, unext.
Qed.

Lemma getPublicKeyThumbprint_Ok cache request keyType kid cache' :
  getPublicKeyThumbprint bc request keyType cache = (Ok kid, cache') ->
  exists pub priv publicKeyJwk digest privateKeyJwk unextractable,
    generateKeyPair bc (keyOptionsFor bc keyType) EXTRACTABLE
      = Ok (Some {| pairPublicKey := Some pub; pairPrivateKey := Some priv |})
    /\ exportJwk bc pub = Ok publicKeyJwk
    /\ sha256Digest bc
         (getJwkString bc [("e", getField "e" publicKeyJwk);
                           ("kty", getField "kty" publicKeyJwk);
                           ("n", getField "n" publicKeyJwk)]) = Ok digest
    /\ kid = urlEncodeArr bc digest
    /\ exportJwk bc priv = Ok privateKeyJwk
    /\ importJwk bc (keyOptionsFor bc keyType) privateKeyJwk false
         (privateKeyUsage (keyOptionsFor bc keyType)) = Ok unextractable
    /\ (setItem (asymmetricKeys cache) kid (cachedEntry request pub unextractable)).2
       = Ok tt
    /\ cache' =
         {| asymmetricKeys :=
              (setItem (asymmetricKeys cache) kid
                 (cachedEntry request pub unextractable)).1;
            symmetricKeys := symmetricKeys cache |}.
Proof.
  intros Hrun.
  destruct (getPublicKeyThumbprint_inv cache request keyType)
    as [(e & Hstop & _)
       |(pub & priv & publicKeyJwk & digest & privateKeyJwk & unext
         & Hgen & Hpub & Hsha & Hpriv & Himp)].
  { rewrite Hstop in Hrun. discriminate Hrun. }
  rewrite (getPublicKeyThumbprint_write _ _ _ _ _ _ _ _ _ Hgen Hpub Hsha Hpriv Himp) in Hrun.
  exists pub, priv, publicKeyJwk, digest, privateKeyJwk, unext.
  destruct (setItem _ _ _) as [written [[]|t]] eqn:Hset; simpl in Hrun; [|discriminate Hrun].
  injection Hrun as <- <-. rewrite Hset. by split_and!.
Qed.

(** What a resolved run left in the asymmetric partition, on a storage that
    keeps the key store contract. *)
Lemma getPublicKeyThumbprint_cached cache request keyType kid cache' :
  StorageContract StA ->
  getPublicKeyThumbprint bc request keyType cache = (Ok kid, cache') ->
  exists pub priv publicKeyJwk digest privateKeyJwk unextractable,
    generateKeyPair bc (keyOptionsFor bc keyType) EXTRACTABLE
      = Ok (Some {| pairPublicKey := Some pub; pairPrivateKey := Some priv |})
    /\ exportJwk bc pub = Ok publicKeyJwk
    /\ sha256Digest bc
         (getJwkString bc [("e", getField "e" publicKeyJwk);
                           ("kty", getField "kty" publicKeyJwk);
                           ("n", getField "n" publicKeyJwk)]) = Ok digest
    /\ kid = urlEncodeArr bc digest
    /\ exportJwk bc priv = Ok privateKeyJwk
    /\ importJwk bc (keyOptionsFor bc keyType) privateKeyJwk false
         (privateKeyUsage (keyOptionsFor bc keyType)) = Ok unextractable
    /\ getItem (asymmetricKeys cache') kid = Some (cachedEntry request pub unextractable)
    /\ (forall k, k <> kid ->
          getItem (asymmetricKeys cache') k = getItem (asymmetricKeys cache) k)
    /\ symmetricKeys cache' = symmetricKeys cache.
Proof.
  intros C Hrun.
  destruct (getPublicKeyThumbprint_Ok _ _ _ _ _ Hrun)
    as (pub & priv & publicKeyJwk & digest & privateKeyJwk & unext
        & Hgen & Hpub & Hsha & Hkid & Hpriv & Himp & Hset & ->).
  exists pub, priv, publicKeyJwk, digest, privateKeyJwk, unext.
  cbn [asymmetricKeys symmetricKeys]. split_and!; try done.
  - rewrite (get_after_set _ C) by done. by rewrite decide_True.
  - intros k Hk. rewrite (get_after_set _ C) by done. by rewrite decide_False.
Qed.

(** C6. When the provider's [generateKeyPair] throws, returns nothing, or
    returns a pair that lacks its public or its private half,
    [getPublicKeyThumbprint] rejects with a key-generation-failed error (with
    the caught error's message, or the message of the guard): no thumbprint
    is returned and the key store is the one it was called on. *)
Theorem getPublicKeyThumbprint_generation_failure cache request keyType :
  generationFails (generateKeyPair bc (keyOptionsFor bc keyType) EXTRACTABLE) = true ->
  getPublicKeyThumbprint bc request keyType cache
  = (Throw (AuthError
              (generationFailure
                 (generateKeyPair bc (keyOptionsFor bc keyType) EXTRACTABLE))),
     cache).
Proof.
  intros Hfail.
  destruct (getPublicKeyThumbprint_inv cache request keyType)
    as [(e & Hstop & He)|(pub & priv & ? & ? & ? & ? & Hgen & _)].
  - rewrite Hfail in He. by rewrite Hstop, He.
  - rewrite Hgen in Hfail. discriminate Hfail.
Qed.

(** C4. A thumbprint returned by [getPublicKeyThumbprint] is the base64url
    encoding of the SHA-256 digest of the JWK string of the object with
    exactly the members [e], [kty], [n], in that order, taken from the
    exported public key; the generated pair is cached in the asymmetric
    partition under that thumbprint, and under no other key. *)
Theorem getPublicKeyThumbprint_thumbprint cache request keyType kid cache' :
  StorageContract StA ->
  getPublicKeyThumbprint bc request keyType cache = (Ok kid, cache') ->
  exists pub priv publicKeyJwk digest entry,
    generateKeyPair bc (keyOptionsFor bc keyType) EXTRACTABLE
      = Ok (Some {| pairPublicKey := Some pub; pairPrivateKey := Some priv |})
    /\ exportJwk bc pub = Ok publicKeyJwk
    /\ sha256Digest bc
         (getJwkString bc [("e", getField "e" publicKeyJwk);
                           ("kty", getField "kty" publicKeyJwk);
                           ("n", getField "n" publicKeyJwk)]) = Ok digest
    /\ kid = urlEncodeArr bc digest
    /\ getItem (asymmetricKeys cache') kid = Some entry
    /\ publicKey entry = pub
    /\ (forall k, k <> kid ->
          getItem (asymmetricKeys cache') k = getItem (asymmetricKeys cache) k)
    /\ symmetricKeys cache' = symmetricKeys cache.
Proof.
  intros C Hrun.
  destruct (getPublicKeyThumbprint_cached _ _ _ _ _ C Hrun)
    as (pub & priv & publicKeyJwk & digest & privateKeyJwk & unext
        & Hgen & Hpub & Hsha & Hkid & _ & _ & Hget & Hothers & Hsym).
  exists pub, priv, publicKeyJwk, digest, (cachedEntry request pub unext).
  by split_and!.
Qed.

(** *** The cached private key cannot be exported *)

(** The two methods that only read the store leave it as it is. *)
Lemma signJwt_frame cache payload kid : (signJwt bc payload kid cache).2 = cache.
Proof.
  unfold signJwt, bindAsync, asymmetricKeys_getItem, await, ret, throw. simpl.
  destruct (getItem (asymmetricKeys cache) kid) as [cachedKeyPair|]; [|done].
  destruct (exportJwk bc (publicKey cachedKeyPair)) as [publicKeyJwk|]; simpl; [|done].
  destruct (JSON_parse bc (getJwkString bc publicKeyJwk)) as [jwk|]; simpl; [|done].
  by destruct (sign bc _ _ _).
Qed.

Lemma getAsymmetricPublicKey_frame cache keyThumbprint :
  (getAsymmetricPublicKey bc keyThumbprint cache).2 = cache.
Proof.
  unfold getAsymmetricPublicKey, bindAsync, asymmetricKeys_getItem, await, ret, throw.
  simpl.
  destruct (getItem (asymmetricKeys cache) keyThumbprint) as [cachedKeyPair|]; [|done].
  by destruct (exportJwk bc (publicKey cachedKeyPair)).
Qed.

(** A run of [getPublicKeyThumbprint] keeps the invariant, also when the
    write of the pair is rejected: what the write may have left under the
    thumbprint is the pair with the private key imported again. *)
Lemma NonExtractableStore_step cache request keyType :
  StorageContract StA ->
  (forall o jwk e u key, importJwk bc o jwk e u = Ok key -> extractable key = e) ->
  NonExtractableStore cache ->
  NonExtractableStore (getPublicKeyThumbprint bc request keyType cache).2.
Proof.
  intros C Himport Hinv.
  destruct (getPublicKeyThumbprint_inv cache request keyType)
    as [(e & Hstop & _)
       |(pub & priv & publicKeyJwk & digest & privateKeyJwk & unext
         & Hgen & Hpub & Hsha & Hpriv & Himp)].
  { by rewrite Hstop. }
  rewrite (getPublicKeyThumbprint_write _ _ _ _ _ _ _ _ _ Hgen Hpub Hsha Hpriv Himp).
  intros k found. cbn [snd asymmetricKeys].
  destruct (set_touches_its_key _ C (asymmetricKeys cache) (urlEncodeArr bc digest)
              (cachedEntry request pub unext) k) as [-> | [_ ->]].
  - apply Hinv.
  - intros [= <-]. simpl. by apply Himport in Himp.
Qed.

Lemma NonExtractableStore_remove cache kid :
  StorageContract StA ->
  NonExtractableStore cache ->
  NonExtractableStore (removeTokenBindingKey kid cache).2.
Proof.
  intros C Hinv k found. rewrite removeTokenBindingKey_run. simpl.
  rewrite (get_after_remove _ C).
  case_decide; [discriminate | apply Hinv].
Qed.

Lemma NonExtractableStore_clear cache :
  StorageContract StA ->
  NonExtractableStore cache ->
  NonExtractableStore (clearKeystore cache).2.
Proof.
  intros C Hinv k found Hfound. rewrite clearKeystore_run in Hfound.
  simpl in Hfound.
  apply (wipe_adds_nothing _ C) in Hfound. by apply Hinv in Hfound.
Qed.

(** C5. With a provider whose [importJwk] gives the key the extractability
    it is asked for, a private key is cached only after it was exported and
    imported again with [extractable = false], although the pair was
    generated with [EXTRACTABLE = true]; so the private key of every pair in
    a store reached through the methods of the class cannot be exported. *)
Theorem cached_private_key_not_extractable cache0 cache :
  StorageContract StA ->
  (forall o jwk e u key, importJwk bc o jwk e u = Ok key -> extractable key = e) ->
  NonExtractableStore cache0 ->
  Reachable bc cache0 cache ->
  NonExtractableStore cache
  /\ forall request keyType kid cache',
      getPublicKeyThumbprint bc request keyType cache = (Ok kid, cache') ->
      exists pub priv privateKeyJwk entry,
        generateKeyPair bc (keyOptionsFor bc keyType) true
          = Ok (Some {| pairPublicKey := Some pub; pairPrivateKey := Some priv |})
        /\ exportJwk bc priv = Ok privateKeyJwk
        /\ importJwk bc (keyOptionsFor bc keyType) privateKeyJwk false
             (privateKeyUsage (keyOptionsFor bc keyType)) = Ok (privateKey entry)
        /\ getItem (asymmetricKeys cache') kid = Some entry
        /\ extractable (privateKey entry) = false.
Proof.
  intros C Himport Hinit Hreach. split.
  - induction Hreach as [|c request keyType _ IH|c kid _ IH|c _ IH
                         |c payload kid _ IH|c keyThumbprint _ IH].
    + exact Hinit.
    + by apply NonExtractableStore_step.
    + by apply NonExtractableStore_remove.
    + by apply NonExtractableStore_clear.
    + by rewrite signJwt_frame.
    + by rewrite getAsymmetricPublicKey_frame.
  - intros request keyType kid cache' Hrun.
    destruct (getPublicKeyThumbprint_cached _ _ _ _ _ C Hrun)
      as (pub & priv & ? & ? & privateKeyJwk & unext
          & Hgen & _ & _ & _ & Hpriv & Himp & Hget & _).
    exists pub, priv, privateKeyJwk, (cachedEntry request pub unext).
    split_and!; try done.
    simpl. by apply Himport in Himp.
Qed.

(** *** Signing *)

Lemma signJwt_unknown_kid cache payload kid :
  getItem (asymmetricKeys cache) kid = None ->
  signJwt bc payload kid cache
  = (Throw (AuthError SigningKeyNotFoundInStorageError), cache).
Proof.
  unfold signJwt, bindAsync, asymmetricKeys_getItem. by intros ->.
Qed.

Lemma signJwt_Ok cache payload kid cachedKeyPair publicKeyJwk jwk signature :
  getItem (asymmetricKeys cache) kid = Some cachedKeyPair ->
  exportJwk bc (publicKey cachedKeyPair) = Ok publicKeyJwk ->
  JSON_parse bc (getJwkString bc publicKeyJwk) = Ok jwk ->
  sign bc (AccessTokenBinding bc) (privateKey cachedKeyPair)
    (stringToArrayBuffer bc
       (urlEncode bc (JSON_stringify bc
          (JsObject [("alg", getField "alg" publicKeyJwk); ("type", JsString "jwk")]))
        ++ "."
        ++ urlEncode bc (JSON_stringify bc
             (JsObject (setField "cnf" (JsObject [("jwk", jwk)]) payload)))))
    = Ok signature ->
  signJwt bc payload kid cache
  = (Ok ((urlEncode bc (JSON_stringify bc
            (JsObject [("alg", getField "alg" publicKeyJwk); ("type", JsString "jwk")]))
          ++ "."
          ++ urlEncode bc (JSON_stringify bc
               (JsObject (setField "cnf" (JsObject [("jwk", jwk)]) payload))))
         ++ "." ++ urlEncodeArr bc signature),
     cache).
Proof.
  intros Hget Hexp Hparse Hsign.
  unfold signJwt, bindAsync, asymmetricKeys_getItem, await, ret.
  rewrite Hget, Hexp. simpl. rewrite Hparse. simpl.
  change CryptoKeyFormats_jwk with "jwk". by rewrite Hsign.
Qed.

(** Once the key pair is found, [signJwt] throws no error of its own: it
    resolves, or rejects with what a platform call rejected with. *)
Lemma signJwt_found cache payload kid cachedKeyPair :
  getItem (asymmetricKeys cache) kid = Some cachedKeyPair ->
  (exists token, signJwt bc payload kid cache = (Ok token, cache))
  \/ (exists t, signJwt bc payload kid cache = (Throw (Passed t), cache)).
Proof.
  intros Hget. unfold signJwt, bindAsync, asymmetricKeys_getItem, await, ret.
  rewrite Hget.
  destruct (exportJwk bc (publicKey cachedKeyPair)) as [publicKeyJwk|]; simpl; [|eauto].
  destruct (JSON_parse bc (getJwkString bc publicKeyJwk)) as [jwk|]; simpl; [|eauto].
  destruct (sign bc _ _ _); simpl; eauto.
Qed.

(** C3. [signJwt] with a [kid] that the asymmetric partition does not hold
    rejects with the signing-key-not-found error. With the [kid] that a
    preceding [getPublicKeyThumbprint] returned, on the store that call left
    behind, the key pair is found: [signJwt] does not reject with that
    error, and it resolves with a token when the platform parses the JWK
    string of the cached public key and signs with the cached private key. *)
Theorem signJwt_key_lookup cache request keyType kid cache' payload :
  StorageContract StA ->
  getPublicKeyThumbprint bc request keyType cache = (Ok kid, cache') ->
  (signJwt bc payload kid cache').1 <> Throw (AuthError SigningKeyNotFoundInStorageError)
  /\ ((forall entry publicKeyJwk,
         getItem (asymmetricKeys cache') kid = Some entry ->
         exportJwk bc (publicKey entry) = Ok publicKeyJwk ->
         isOk (JSON_parse bc (getJwkString bc publicKeyJwk)) = true) ->
      (forall entry data,
         getItem (asymmetricKeys cache') kid = Some entry ->
         isOk (sign bc (AccessTokenBinding bc) (privateKey entry) data) = true) ->
      exists token, signJwt bc payload kid cache' = (Ok token, cache'))
  /\ (forall (anyCache : CryptoKeyStore SA SS) unknown,
        getItem (asymmetricKeys anyCache) unknown = None ->
        signJwt bc payload unknown anyCache
        = (Throw (AuthError SigningKeyNotFoundInStorageError), anyCache)).
Proof.
  intros C Hrun.
  destruct (getPublicKeyThumbprint_cached _ _ _ _ _ C Hrun)
    as (pub & priv & publicKeyJwk & ? & ? & unext & _ & Hpub & _ & _ & _ & _ & Hget & _).
  set (entry := cachedEntry request pub unext) in Hget.
  split_and!.
  - by destruct (signJwt_found cache' payload kid entry Hget) as [[? ->]|[? ->]].
  - intros Hparse Hsign.
    specialize (Hparse entry publicKeyJwk Hget Hpub).
    destruct (JSON_parse bc (getJwkString bc publicKeyJwk)) as [jwk|] eqn:Hjwk;
      [|discriminate].
    pose proof (signJwt_Ok cache' payload kid entry publicKeyJwk jwk) as Hok.
    match type of Hok with context [sign bc ?o ?k ?d] =>
      specialize (Hsign entry d Hget); destruct (sign bc o k d) as [signature|] eqn:Hsig;
        [|discriminate] end.
    eexists. by apply (Hok signature).
  - intros. by apply signJwt_unknown_kid.
Qed.

(** C8. When the key pair is cached under [kid] and the platform calls
    resolve, [signJwt] resolves with [h.p.s]: [h] the base64url of the JSON
    of the header [{alg, type: "jwk"}] with [alg] read from the exported
    public JWK, [p] the base64url of the JSON of the payload whose [cnf] is
    [{jwk}] with the public JWK, and [s] the base64url of the signature made
    with the cached private key over the bytes of the string [h.p]. When the
    three encodings hold no dot, the token splits at its dots into exactly
    these three segments. *)
Theorem signJwt_compact_jwt cache payload kid cachedKeyPair publicKeyJwk jwk signature :
  let header :=
    JsObject [("alg", getField "alg" publicKeyJwk); ("type", JsString "jwk")] in
  let signedPayload := setField "cnf" (JsObject [("jwk", jwk)]) payload in
  let encodedHeader := urlEncode bc (JSON_stringify bc header) in
  let encodedPayload := urlEncode bc (JSON_stringify bc (JsObject signedPayload)) in
  let encodedSignature := urlEncodeArr bc signature in
  getItem (asymmetricKeys cache) kid = Some cachedKeyPair ->
  exportJwk bc (publicKey cachedKeyPair) = Ok publicKeyJwk ->
  JSON_parse bc (getJwkString bc publicKeyJwk) = Ok jwk ->
  sign bc (AccessTokenBinding bc) (privateKey cachedKeyPair)
    (stringToArrayBuffer bc (encodedHeader ++ "." ++ encodedPayload)) = Ok signature ->
  signJwt bc payload kid cache
    = (Ok (encodedHeader ++ "." ++ encodedPayload ++ "." ++ encodedSignature), cache)
  /\ getField "cnf" signedPayload = JsObject [("jwk", jwk)]
  /\ (lacks "." encodedHeader = true ->
      lacks "." encodedPayload = true ->
      lacks "." encodedSignature = true ->
      splitOn "." (encodedHeader ++ "." ++ encodedPayload ++ "." ++ encodedSignature)
      = [encodedHeader; encodedPayload; encodedSignature]).
Proof.
  intros header signedPayload encodedHeader encodedPayload encodedSignature
    Hget Hexp Hparse Hsign.
  split_and!.
  - rewrite (signJwt_Ok _ _ _ _ _ _ _ Hget Hexp Hparse Hsign).
    do 2 f_equal. by rewrite !append_assoc.
  - apply getField_setField_eq.
  - intros Hh Hp Hs.
    change ("." ++ encodedPayload ++ "." ++ encodedSignature)
      with (String "." (encodedPayload ++ String "." encodedSignature)).
    rewrite (splitOn_app _ _ _ Hh), (splitOn_app _ _ _ Hp).
    by rewrite (splitOn_lacks _ _ Hs).
Qed.

End AnyStorage.

End CryptoOpsFacts.

(** ** CryptoOps on the in-memory store *)

Module CryptoOpsExamples.
Import Js KeyStore CryptoOps TestDouble KeyStoreFacts CryptoOpsFacts.

(** A refused wipe makes [clearKeystore] resolve with [false], and the
    entries are still there. *)
Example clearKeystore_reports_failure :
  clearKeystore stuckStore = (Ok false, stuckStore).
Proof. reflexivity. Qed.

Lemma clearKeystore_empties_both_witness :
  getItem (asymmetricKeys storeWithBoth) "kid-1" = Some testCachedKeyPair
  /\ getItem (symmetricKeys storeWithBoth) "stk-1" = Some testSymmetricKey
  /\ (clearKeystore storeWithBoth).1 = Ok true
  /\ getItem (asymmetricKeys (clearKeystore storeWithBoth).2) "kid-1" = None
  /\ getItem (symmetricKeys (clearKeystore storeWithBoth).2) "stk-1" = None.
Proof.
  destruct (clearKeystore_empties_both storeWithBoth
              (MemoryStorage_contract _) (MemoryStorage_contract _))
    as (Hwiped & Hgone & _).
  split; [apply lookup_singleton_eq|].
  split; [apply lookup_singleton_eq|].
  split; [exact Hwiped|].
  split; [apply (Hgone Hwiped "kid-1") | apply (Hgone Hwiped "stk-1")].
Defined.

(** On the in-memory store the key is removed and the method resolves with
    [true]; on a backend that refuses removals the key stays and the method
    resolves with [false]. *)
Lemma removeTokenBindingKey_removes_witness :
  (getItem (asymmetricKeys storeWithBoth) "kid-1" = Some testCachedKeyPair
   /\ (removeTokenBindingKey "kid-1" storeWithBoth).1 = Ok true
   /\ getItem (asymmetricKeys (removeTokenBindingKey "kid-1" storeWithBoth).2) "kid-1"
      = None)
  /\ ((removeTokenBindingKey "kid-1" stuckStore).1 = Ok false
      /\ getItem (asymmetricKeys (removeTokenBindingKey "kid-1" stuckStore).2) "kid-1"
         = Some testCachedKeyPair).
Proof.
  split.
  - destruct (removeTokenBindingKey_removes storeWithBoth "kid-1")
      as (removed & Hrun & _ & _ & _ & Hremoves).
    { intros s k. apply bool_decide_eq_true. }
    destruct Hremoves as (-> & Hgone & _).
    { intros s k k'. apply lookup_delete. }
    split; [apply lookup_singleton_eq|]. by split.
  - destruct (removeTokenBindingKey_removes stuckStore "kid-1")
      as (removed & Hrun & Hiff & _).
    { intros s k. apply bool_decide_eq_true. }
    assert (Hkept : getItem (asymmetricKeys (removeTokenBindingKey "kid-1" stuckStore).2)
                      "kid-1" = Some testCachedKeyPair)
      by apply lookup_singleton_eq.
    split; [|exact Hkept].
    rewrite Hrun. f_equal. destruct removed; [|reflexivity].
    destruct Hiff as [Habsent _]. rewrite (Habsent eq_refl) in Hkept. discriminate Hkept.
Defined.

Lemma getPublicKeyThumbprint_generation_failure_witness :
  getPublicKeyThumbprint (testPlatform OmitsPrivate) testRequest None emptyStore
  = (Throw (AuthError (KeyGenerationFailedError (Some missingHalfMessage))), emptyStore)
  /\ getPublicKeyThumbprint (testPlatform (Throws (JsError "OperationError")))
       testRequest (Some StkJwk) emptyStore
     = (Throw (AuthError (KeyGenerationFailedError (Some "OperationError"))), emptyStore).
Proof.
  split.
  - apply (getPublicKeyThumbprint_generation_failure (testPlatform OmitsPrivate)
             emptyStore testRequest None).
    reflexivity.
  - apply (getPublicKeyThumbprint_generation_failure
             (testPlatform (Throws (JsError "OperationError")))
             emptyStore testRequest (Some StkJwk)).
    reflexivity.
Defined.

Lemma generated_run :
  getPublicKeyThumbprint (testPlatform WellBehaved) testRequest None emptyStore
  = (Ok generatedKid, generatedStore).
Proof. vm_compute. reflexivity. Qed.

Lemma generated_entry entry :
  getItem (asymmetricKeys generatedStore) generatedKid = Some entry ->
  entry = {| publicKey := testPublicKey;
             privateKey := {| keyKind := PrivateKind; extractable := false;
                              usages := ["sign"]; material := testPrivateJwk |};
             requestMethod := Some "POST";
             requestUri := Some "https://resource.example/api?foo=bar" |}.
Proof.
  unfold generatedStore, generatedKid. rewrite generated_run. simpl.
  rewrite lookup_insert_eq. by intros [= <-].
Qed.

Lemma getPublicKeyThumbprint_thumbprint_witness :
  exists entry,
    getItem (asymmetricKeys generatedStore) generatedKid = Some entry
    /\ publicKey entry = testPublicKey.
Proof.
  destruct (getPublicKeyThumbprint_thumbprint (testPlatform WellBehaved) emptyStore
              testRequest None generatedKid generatedStore
              (MemoryStorage_contract _) generated_run)
    as (pub & priv & jwk & digest & entry & Hgen & _ & _ & _ & Hget & Hpub & _).
  exists entry. split; [exact Hget|].
  rewrite Hpub. simpl in Hgen. by injection Hgen as <- _.
Defined.

Lemma cached_private_key_not_extractable_witness :
  (exists priv,
     generateKeyPair (testPlatform WellBehaved) rsaOptions EXTRACTABLE
       = Ok (Some {| pairPublicKey := Some testPublicKey; pairPrivateKey := Some priv |})
     /\ extractable priv = true)
  /\ NonExtractableStore generatedStore.
Proof.
  split; [by exists (testPrivateKey true)|].
  apply (cached_private_key_not_extractable (testPlatform WellBehaved)
           emptyStore generatedStore (MemoryStorage_contract _)).
  - intros o jwk e u key [= <-]. reflexivity.
  - intros k entry H. simpl in H. by rewrite lookup_empty in H.
  - apply (reach_getPublicKeyThumbprint _ _ emptyStore testRequest None), reach_initial.
Defined.

Lemma signJwt_key_lookup_witness :
  exists token,
    signJwt (testPlatform WellBehaved) testPayload generatedKid generatedStore
    = (Ok token, generatedStore).
Proof.
  destruct (signJwt_key_lookup (testPlatform WellBehaved) emptyStore testRequest None
              generatedKid generatedStore testPayload
              (MemoryStorage_contract _) generated_run) as (_ & Hsigns & _).
  apply Hsigns.
  - intros entry jwk ->%generated_entry [= <-]. vm_compute. reflexivity.
  - intros entry data ->%generated_entry. reflexivity.
Defined.

Lemma signJwt_compact_jwt_witness :
  exists h p sig,
    signJwt (testPlatform WellBehaved) testPayload "kid-1" storeWithBoth
      = (Ok (h ++ "." ++ p ++ "." ++ sig), storeWithBoth)
    /\ h = "eyJhbGciOiJSUzI1NiIsInR5cGUiOiJqd2sifQ"
    /\ splitOn "." (h ++ "." ++ p ++ "." ++ sig) = [h; p; sig].
Proof.
  set (P := testPlatform WellBehaved).
  set (h := urlEncode P (JSON_stringify P
         (JsObject [("alg", getField "alg" testPublicJwk); ("type", JsString "jwk")]))).
  set (p := urlEncode P (JSON_stringify P
         (JsObject (setField "cnf" (JsObject [("jwk", JsObject testPublicJwk)]) testPayload)))).
  destruct (signJwt_compact_jwt P storeWithBoth testPayload "kid-1"
              testCachedKeyPair testPublicJwk (JsObject testPublicJwk)
              (rev (stringToArrayBuffer P (h ++ "." ++ p))))
    as (Hok & _ & Hsplit).
  - apply lookup_singleton_eq.
  - reflexivity.
  - vm_compute. reflexivity.
  - reflexivity.
  - eexists _, _, _. split; [exact Hok|]. split.
    + vm_compute. reflexivity.
    + apply Hsplit; vm_compute; reflexivity.
Defined.

End CryptoOpsExamples.

(** ** The payload of signPopToken *)

Module PopTokenFacts.
Import Js KeyStore CryptoOps PopTokenGenerator.

Lemma breakAt_app stop a c b :
  avoids stop a = true -> stop c = true ->
  breakAt stop (a ++ String c b) = (a, String c b).
Proof.
  intros Ha Hc. induction a as [|x a IH].
  - change (breakAt stop (String c b) = ("", String c b)). simpl. by rewrite Hc.
  - change (breakAt stop (String x (a ++ String c b)) = (String x a, String c b)).
    simpl in Ha. apply andb_true_iff in Ha as [Hx Ha]. apply negb_true_iff in Hx.
    simpl. rewrite Hx. by rewrite (IH Ha).
Qed.

Lemma breakAt_all stop a : avoids stop a = true -> breakAt stop a = (a, "").
Proof.
  induction a as [|x a IH]; [done|]. simpl.
  intros [Hx Ha]%andb_true_iff. apply negb_true_iff in Hx.
  rewrite Hx. by rewrite (IH Ha).
Qed.

(** The components of [scheme://host/path?query]. *)
Lemma getUrlComponents_parts scheme host path query :
  scheme <> "" ->
  avoids (isOneOf [":"; "/"; "?"; "#"]%char) scheme = true ->
  avoids (isOneOf ["/"; "?"; "#"]%char) host = true ->
  (path = "" \/ exists rest, path = String "/" rest) ->
  avoids (isOneOf ["?"; "#"]%char) path = true ->
  avoids (isOneOf ["#"]%char) query = true ->
  getUrlComponents (scheme ++ "://" ++ host ++ path ++ "?" ++ query)
  = {| Protocol := scheme;
       HostNameAndPort := host;
       AbsolutePath := path;
       QueryString := query;
       Hash := "" |}.
Proof.
  intros Hne Hscheme Hhost Hpath Hp Hquery. unfold getUrlComponents.
  change (scheme ++ "://" ++ host ++ path ++ "?" ++ query)
    with (scheme ++ String ":" (String "/" (String "/" (host ++ path ++ String "?" query)))).
  rewrite (breakAt_app _ scheme ":" _ Hscheme eq_refl). cbn [fst snd].
  apply String.eqb_neq in Hne. rewrite Hne. cbn [dropPrefix Ascii.eqb Bool.eqb].
  assert (Hauth : breakAt (isOneOf ["/"; "?"; "#"]%char) (host ++ path ++ String "?" query)
                  = (host, path ++ String "?" query)).
  { destruct Hpath as [->|[rest ->]].
    - apply (breakAt_app _ host "?" query Hhost eq_refl).
    - apply (breakAt_app _ host "/" (rest ++ String "?" query) Hhost eq_refl). }
  rewrite Hauth. rewrite (breakAt_app _ path "?" query Hp eq_refl).
  by rewrite (breakAt_all _ query Hquery).
Qed.

(** C7. For a request with a method (as [POST]), a nonce and a resource URL
    [scheme://host/path?query], the payload of [signPopToken] is exactly
    [{at, ts, m, u, nonce, p, q, client_claims}] with [m] the method, [u] the
    host and port, [p] the absolute path, [q] the pair of the empty list and
    the query string without the leading question mark, and the claims as
    given; for a request without method, URL and claims, [m], [u], [p], [q]
    and [client_claims] are [undefined], and [nonce] is the request's nonce
    or, when it has none, the generated GUID. *)
Theorem signPopToken_payload nowSeconds newGuid accessToken
    method scheme host path query claims nonce suppliedNonce :
  scheme <> "" ->
  avoids (isOneOf [":"; "/"; "?"; "#"]%char) scheme = true ->
  avoids (isOneOf ["/"; "?"; "#"]%char) host = true ->
  (path = "" \/ exists rest, path = String "/" rest) ->
  avoids (isOneOf ["?"; "#"]%char) path = true ->
  avoids (isOneOf ["#"]%char) query = true ->
  signPopTokenPayload nowSeconds newGuid accessToken
    {| resourceRequestMethod := Some method;
       resourceRequestUri := Some (scheme ++ "://" ++ host ++ path ++ "?" ++ query);
       shrClaims := claims;
       shrNonce := Some nonce |}
  = [("at", JsString accessToken);
     ("ts", JsNumber nowSeconds);
     ("m", JsString method);
     ("u", JsString host);
     ("nonce", JsString nonce);
     ("p", JsString path);
     ("q", JsArray [JsArray []; JsString query]);
     ("client_claims", ofOptString claims)]
  /\ signPopTokenPayload nowSeconds newGuid accessToken
       {| resourceRequestMethod := None;
          resourceRequestUri := None;
          shrClaims := None;
          shrNonce := suppliedNonce |}
     = [("at", JsString accessToken);
        ("ts", JsNumber nowSeconds);
        ("m", JsUndefined);
        ("u", JsUndefined);
        ("nonce", JsString (default newGuid suppliedNonce));
        ("p", JsUndefined);
        ("q", JsUndefined);
        ("client_claims", JsUndefined)].
Proof.
  intros Hne Hscheme Hhost Hpath Hp Hquery. split; [|reflexivity].
  unfold signPopTokenPayload.
  cbn [resourceRequestUri resourceRequestMethod shrClaims shrNonce].
  cbn [fmap option_fmap option_map].
  rewrite (getUrlComponents_parts _ _ _ _ Hne Hscheme Hhost Hpath Hp Hquery).
  reflexivity.
Qed.

Lemma signPopToken_payload_witness :
  signPopTokenPayload 1700000000 "guid-1" "access-token"
    {| resourceRequestMethod := Some "POST";
       resourceRequestUri := Some "https://resource.example/api?foo=bar";
       shrClaims := None;
       shrNonce := Some "nonce-1" |}
  = [("at", JsString "access-token");
     ("ts", JsNumber 1700000000);
     ("m", JsString "POST");
     ("u", JsString "resource.example");
     ("nonce", JsString "nonce-1");
     ("p", JsString "/api");
     ("q", JsArray [JsArray []; JsString "foo=bar"]);
     ("client_claims", JsUndefined)]
  /\ signPopTokenPayload 1700000000 "guid-1" "access-token"
       {| resourceRequestMethod := None;
          resourceRequestUri := None;
          shrClaims := None;
          shrNonce := None |}
     = [("at", JsString "access-token");
        ("ts", JsNumber 1700000000);
        ("m", JsUndefined);
        ("u", JsUndefined);
        ("nonce", JsString "guid-1");
        ("p", JsUndefined);
        ("q", JsUndefined);
        ("client_claims", JsUndefined)].
Proof.
  apply (signPopToken_payload 1700000000 "guid-1" "access-token" "POST"
           "https" "resource.example" "/api" "foo=bar" None "nonce-1" None).
  - discriminate.
  - reflexivity.
  - reflexivity.
  - right. by exists "api".
  - reflexivity.
  - reflexivity.
Defined.

End PopTokenFacts.

(** ** The throttling gate around the token POST *)

Module BaseClientFacts.
Import Js BaseClient TokenEndpoint.

Section Gate.
Context {CacheManager RequestThumbprint : Type}.
Variable throttling : ThrottlingUtils CacheManager RequestThumbprint.
Variable names : HeaderNames.
Variable sendPostRequestAsync : string -> NetworkRequestOptions -> Promise NetworkResponse.
Variable performanceClient : option (JsFields -> string -> Outcome JsThrown unit).
Variable networkError : AuthError.

Abbreviation telemetry :=
  (addFields (RequestThumbprint := RequestThumbprint) performanceClient).
Abbreviation caught :=
  (onCatch (RequestThumbprint := RequestThumbprint) names performanceClient networkError).

Abbreviation run cm thumbprint tokenEndpoint options correlationId :=
  (sendPostRequest throttling names sendPostRequestAsync performanceClient networkError
     cm thumbprint tokenEndpoint options correlationId).

(** The telemetry call leaves at most one event, never a POST or a
    post-flight call. *)
Lemma addFields_trace fields correlationId :
  (telemetry fields correlationId).1 = []
  \/ (telemetry fields correlationId).1
     = [FieldsAdded fields correlationId].
Proof. unfold addFields. destruct performanceClient; [right|left]; reflexivity. Qed.

Lemma onCatch_trace e correlationId :
  (caught e correlationId).1 = []
  \/ exists fields,
       (caught e correlationId).1
       = [FieldsAdded fields correlationId].
Proof.
  unfold onCatch. destruct e as [err st [hs|]|a|t]; try (left; reflexivity).
  destruct (addFields_trace (failureFields names hs st) correlationId) as [H|H];
    destruct (telemetry _ correlationId) as [tr [u|e']];
    simpl in *; subst; eauto.
Qed.

(** What the [catch] block throws for what it caught, when its own
    telemetry call does not throw: the error a [NetworkError] wraps, an
    [AuthError] as it is, the client's network error for anything else. *)
Lemma onCatch_thrown e correlationId :
  (forall add fields, performanceClient = Some add ->
                      isOk (add fields correlationId) = true) ->
  (caught e correlationId).2 = ThrownAuthError (unwrapped networkError e).
Proof.
  intros Htotal. unfold onCatch, addFields.
  destruct e as [err st [hs|]|a|t]; try reflexivity.
  destruct performanceClient as [add|]; [|reflexivity].
  specialize (Htotal add (failureFields names hs st) eq_refl).
  by destruct (add (failureFields names hs st) correlationId).
Qed.

(** A rejected pre-flight ends the call: nothing but the pre-flight call
    happened, and its error is the method's. *)
Lemma sendPostRequest_throttled cm thumbprint tokenEndpoint options correlationId cm1 e :
  preProcess throttling cm thumbprint = (cm1, Throw e) ->
  run cm thumbprint tokenEndpoint options correlationId
  = ([PreProcessCalled thumbprint], cm1, Throw e).
Proof. unfold sendPostRequest. by intros ->. Qed.

(** A thrown POST: the trace ends with the events of the [catch] block and
    the method throws what that block throws. *)
Lemma sendPostRequest_network_throws cm thumbprint tokenEndpoint options correlationId cm1 e :
  preProcess throttling cm thumbprint = (cm1, Ok tt) ->
  sendPostRequestAsync tokenEndpoint options = Throw e ->
  run cm thumbprint tokenEndpoint options correlationId
  = (PreProcessCalled thumbprint :: NetworkPost tokenEndpoint options
       :: (caught e correlationId).1,
     cm1,
     Throw (caught e correlationId).2).
Proof.
  intros Hpre Hnet. unfold sendPostRequest, tryBlock. rewrite Hpre, Hnet.
  by destruct (caught e correlationId).
Qed.

(** A received response whose telemetry call went through: the post-flight
    call closes the trace, and the response is the result unless that call
    throws. *)
Lemma sendPostRequest_response cm thumbprint tokenEndpoint options correlationId
    cm1 response tr :
  preProcess throttling cm thumbprint = (cm1, Ok tt) ->
  sendPostRequestAsync tokenEndpoint options = Ok response ->
  telemetry (successFields names response) correlationId = (tr, Ok tt) ->
  run cm thumbprint tokenEndpoint options correlationId
  = (PreProcessCalled thumbprint :: NetworkPost tokenEndpoint options :: tr
       ++ [PostProcessCalled thumbprint response],
     (postProcess throttling cm1 thumbprint response).1,
     match (postProcess throttling cm1 thumbprint response).2 with
     | Ok _ => Ok response
     | Throw e => Throw e
     end).
Proof.
  intros Hpre Hnet Hadd. unfold sendPostRequest, tryBlock. rewrite Hpre, Hnet, Hadd.
  by destruct (postProcess throttling cm1 thumbprint response) as [cm2 [[]|e]].
Qed.

(** A received response whose telemetry call threw inside the [try]. *)
Lemma sendPostRequest_telemetry_throws cm thumbprint tokenEndpoint options correlationId
    cm1 response tr e :
  preProcess throttling cm thumbprint = (cm1, Ok tt) ->
  sendPostRequestAsync tokenEndpoint options = Ok response ->
  telemetry (successFields names response) correlationId = (tr, Throw e) ->
  run cm thumbprint tokenEndpoint options correlationId
  = (PreProcessCalled thumbprint :: (NetworkPost tokenEndpoint options :: tr)
       ++ (caught e correlationId).1,
     cm1,
     Throw (caught e correlationId).2).
Proof.
  intros Hpre Hnet Hadd. unfold sendPostRequest, tryBlock. rewrite Hpre, Hnet, Hadd.
  by destruct (caught e correlationId).
Qed.

Ltac trace_cases :=
  repeat match goal with
    | H : (_ :: _) !! ?i = Some _ |- _ => destruct i; simpl in H
    | H : [] !! _ = Some _ |- _ => by rewrite lookup_nil in H
    | H : Some _ = Some _ |- _ => injection H as H; try discriminate H
    | H : _ = _ |- _ => discriminate H
    end.

(** C9. In every run of [sendPostRequest] the pre-flight check on the
    request thumbprint is the first thing done and is done once. When it
    throws, nothing else happens: no POST is sent, and the method throws
    that error. When it passes, the POST is sent next, once, to the given
    endpoint with the given options. When the network client returns a
    response and the telemetry fields of the response were recorded, the
    post-flight update is called on that response with the same thumbprint,
    as the last step; the response is the method's result, unless the
    post-flight update throws, and then its error is the method's. When
    recording the telemetry fields throws, the [catch] block takes over as
    for a thrown POST. The post-flight update is called in no other case.
    When the network client throws, the post-flight update is not called,
    the cache manager is as the pre-flight check left it, and the method
    throws what its [catch] block makes of the thrown value: the error a
    [NetworkError] wraps, an [AuthError] as it is, and the client's network
    error for anything else (or what the telemetry call of the [catch] block
    threw). *)
Theorem sendPostRequest_gate cm thumbprint tokenEndpoint options correlationId :
  let pre := preProcess throttling cm thumbprint in
  let posted := sendPostRequestAsync tokenEndpoint options in
  let outcome :=
    sendPostRequest throttling names sendPostRequestAsync performanceClient networkError
      cm thumbprint tokenEndpoint options correlationId in
  let trace := outcome.1.1 in
  let result := outcome.2 in
  trace !! 0%nat = Some (PreProcessCalled thumbprint)
  /\ (forall i t, trace !! i = Some (PreProcessCalled t) -> i = 0%nat)
  /\ (forall e, pre.2 = Throw e ->
        outcome = ([PreProcessCalled thumbprint], pre.1, Throw e))
  /\ (pre.2 = Ok tt -> trace !! 1%nat = Some (NetworkPost tokenEndpoint options))
  /\ (forall i endpoint opts, trace !! i = Some (NetworkPost endpoint opts) ->
        i = 1%nat /\ endpoint = tokenEndpoint /\ opts = options /\ pre.2 = Ok tt)
  /\ (forall response,
        pre.2 = Ok tt ->
        posted = Ok response ->
        (telemetry (successFields names response) correlationId).2 = Ok tt ->
        trace = PreProcessCalled thumbprint :: NetworkPost tokenEndpoint options
                  :: (telemetry (successFields names response) correlationId).1
                  ++ [PostProcessCalled thumbprint response]
        /\ outcome.1.2 = (postProcess throttling pre.1 thumbprint response).1
        /\ result = match (postProcess throttling pre.1 thumbprint response).2 with
                    | Ok _ => Ok response
                    | Throw e => Throw e
                    end)
  /\ (forall response e,
        pre.2 = Ok tt ->
        posted = Ok response ->
        (telemetry (successFields names response) correlationId).2 = Throw e ->
        trace = PreProcessCalled thumbprint :: NetworkPost tokenEndpoint options
                  :: (telemetry (successFields names response) correlationId).1
                  ++ (caught e correlationId).1
        /\ outcome.1.2 = pre.1
        /\ result = Throw (caught e correlationId).2)
  /\ (forall j t response, trace !! j = Some (PostProcessCalled t response) ->
        t = thumbprint
        /\ pre.2 = Ok tt
        /\ posted = Ok response
        /\ (telemetry (successFields names response) correlationId).2 = Ok tt
        /\ (1 < j)%nat
        /\ S j = length trace)
  /\ (forall e,
        pre.2 = Ok tt ->
        posted = Throw e ->
        trace = PreProcessCalled thumbprint :: NetworkPost tokenEndpoint options
                  :: (caught e correlationId).1
        /\ (forall j t response, trace !! j <> Some (PostProcessCalled t response))
        /\ outcome.1.2 = pre.1
        /\ result = Throw (caught e correlationId).2
        /\ ((forall add fields, performanceClient = Some add ->
                                isOk (add fields correlationId) = true) ->
            result = Throw (ThrownAuthError (unwrapped networkError e)))).
Proof.
  intros pre posted outcome trace result. subst trace result outcome posted pre.
  destruct (preProcess throttling cm thumbprint) as [cm1 [[]|e0]] eqn:Hpre.
  - destruct (sendPostRequestAsync tokenEndpoint options) as [r|e] eqn:Hnet.
    + destruct (telemetry (successFields names r) correlationId) as [tr [[]|e1]] eqn:Hadd.
      * rewrite (sendPostRequest_response _ _ _ _ _ _ _ _ Hpre Hnet Hadd).
        pose proof (addFields_trace (successFields names r) correlationId) as Htr.
        rewrite Hadd in Htr. simpl in Htr.
        destruct Htr as [-> | ->]; cbn [fst snd app];
          split_and!; try done; intros; trace_cases; simplify_eq;
          rewrite ?Hadd in *; cbn [fst snd app] in *; try discriminate;
          repeat split; eauto with lia.
      * rewrite (sendPostRequest_telemetry_throws _ _ _ _ _ _ _ _ _ Hpre Hnet Hadd).
        pose proof (addFields_trace (successFields names r) correlationId) as Htr.
        rewrite Hadd in Htr. simpl in Htr.
        destruct (onCatch_trace e1 correlationId) as [Hc | [fields Hc]];
          rewrite Hc; destruct Htr as [-> | ->]; cbn [fst snd app];
          split_and!; try done; intros; trace_cases; simplify_eq;
          rewrite ?Hadd in *; cbn [fst snd app] in *; try discriminate;
          simplify_eq; rewrite ?Hc; repeat split; eauto with lia.
    + rewrite (sendPostRequest_network_throws _ _ _ _ _ _ _ Hpre Hnet).
      pose proof (onCatch_thrown e correlationId) as Hthrown.
      destruct (onCatch_trace e correlationId) as [Hc | [fields Hc]];
        rewrite Hc; cbn [fst snd app];
        split_and!; try done; intros; trace_cases; simplify_eq;
        rewrite ?Hc; repeat split; eauto with lia;
        try (intros ? ? ? ?; trace_cases);
        try (intros Htotal; by rewrite (Hthrown Htotal)).
  - rewrite (sendPostRequest_throttled _ _ _ _ _ _ _ Hpre). cbn [fst snd].
    split_and!; try done; intros; trace_cases; simplify_eq;
      repeat split; eauto with lia.
Qed.

End Gate.

(** With an entry whose [throttleTime] lies 60 seconds ahead, the request
    is rejected with the cached error fields and no POST is sent; once the
    time has passed, the stale entry is dropped and the POST goes out. *)
Example sendPostRequest_throttled_example :
  sendPostRequest (specThrottling 100 60 (fun _ => None)) testNames
    (fun _ _ => Ok testResponse) None testNetworkError
    throttledCache "thumbprint-T" "https://login.example/token" testOptions "cid-1"
  = ([PreProcessCalled "thumbprint-T"],
     throttledCache,
     Throw (ThrownAuthError {| errorCode := "429";
                               errorMessage := "Too many requests";
                               subError := "" |})).
Proof. vm_compute. reflexivity. Qed.

Example sendPostRequest_expired_example :
  sendPostRequest (specThrottling 200 60 (fun _ => None)) testNames
    (fun _ _ => Ok testResponse) None testNetworkError
    throttledCache "thumbprint-T" "https://login.example/token" testOptions "cid-1"
  = ([PreProcessCalled "thumbprint-T";
      NetworkPost "https://login.example/token" testOptions;
      PostProcessCalled "thumbprint-T" testResponse],
     ∅,
     Ok testResponse).
Proof. vm_compute. reflexivity. Qed.

(** A post-flight update that throws: the response was received and the
    update was called on it, but the method throws the update's error. *)
Example sendPostRequest_postflight_throws_example :
  sendPostRequest (readOnlyThrottling 200) testNames
    (fun _ _ => Ok throttlingResponse) None testNetworkError
    ∅ "thumbprint-T" "https://login.example/token" testOptions "cid-1"
  = ([PreProcessCalled "thumbprint-T";
      NetworkPost "https://login.example/token" testOptions;
      PostProcessCalled "thumbprint-T" throttlingResponse],
     ∅,
     Throw (ThrownOther (JsError "QuotaExceededError"))).
Proof. vm_compute. reflexivity. Qed.

(** C9, against the wording that an exception of the network client
    propagates: the network client throws a value that is neither a
    [NetworkError] nor an [AuthError]; the post-flight update is not called,
    and what the method throws is not that value but the client's network
    error. *)
Lemma sendPostRequest_exception_replaced :
  sendPostRequest (specThrottling 200 60 (fun _ => None)) testNames
    (fun _ _ => Throw (ThrownOther (JsError "socket hang up"))) None testNetworkError
    ∅ "thumbprint-T" "https://login.example/token" testOptions "cid-1"
  = ([PreProcessCalled "thumbprint-T";
      NetworkPost "https://login.example/token" testOptions],
     ∅,
     Throw (ThrownAuthError testNetworkError))
  /\ (sendPostRequest (specThrottling 200 60 (fun _ => None)) testNames
        (fun _ _ => Throw (ThrownOther (JsError "socket hang up"))) None testNetworkError
        ∅ "thumbprint-T" "https://login.example/token" testOptions "cid-1").2
     <> Throw (ThrownOther (JsError "socket hang up")).
Proof. split; [vm_compute; reflexivity | discriminate]. Qed.

End BaseClientFacts.

(** ** signIn resolves with a result *)

Module NativeAuthFacts.
Import Js NativeAuth.

Section Controller.
Variable config : NativeAuthConfig.
Variable env : Collaborators.

Lemma signIn_missing_username signInOptions :
  truthyStr (username signInOptions) = false ->
  signIn config env signInOptions
  = Ok (createWithError
          (InvalidArgumentError "username"
             (getCorrelationId env (correlationId signInOptions)))).
Proof. unfold signIn. by intros ->. Qed.

Lemma signIn_flow signInOptions :
  truthyStr (username signInOptions) = true ->
  signIn config env signInOptions
  = match signInFlow config env signInOptions
            (getCorrelationId env (correlationId signInOptions))
            (default "" (username signInOptions)) with
    | Ok result => Ok result
    | Throw error => Ok (createWithError error)
    end.
Proof. unfold signIn. by intros ->. Qed.

(** C10. [signIn] always resolves: without a user name the result carries
    the invalid-argument error; an error thrown by [signInClient.start] or by
    [signInClient.submitPassword], and the error thrown for a start result of
    unknown type, is caught and carried by the result. *)
Theorem signIn_never_rejects signInOptions :
  let cid := getCorrelationId env (correlationId signInOptions) in
  (exists result, signIn config env signInOptions = Ok result)
  /\ (truthyStr (username signInOptions) = false ->
      signIn config env signInOptions
      = Ok (createWithError (InvalidArgumentError "username" cid)))
  /\ (forall error,
        truthyStr (username signInOptions) = true ->
        signInFlow config env signInOptions cid (default "" (username signInOptions))
          = Throw error ->
        signIn config env signInOptions = Ok (createWithError error))
  /\ (forall error,
        truthyStr (username signInOptions) = true ->
        (forall p, start env p = Throw error) ->
        signIn config env signInOptions = Ok (createWithError error))
  /\ (forall token error,
        truthyStr (username signInOptions) = true ->
        truthyStr (password signInOptions) = true ->
        (forall p, start env p = Ok (SignInWithContinuationTokenResult token)) ->
        (forall p, submitPassword env p = Throw error) ->
        signIn config env signInOptions = Ok (createWithError error))
  /\ (truthyStr (username signInOptions) = true ->
      (forall p, start env p = Ok UnknownStartResult) ->
      signIn config env signInOptions
      = Ok (createWithError
              (NativeAuthThrown
                 {| errorName := "unexpected_error";
                    errorDescription := "Unknow SignInStartResult type";
                    errorCorrelationId := None |}))).
Proof.
  intros cid. subst cid. split_and!.
  - unfold signIn. destruct (negb _); [eauto|].
    destruct (signInFlow _ _ _ _ _); eauto.
  - apply signIn_missing_username.
  - intros error Hu Hflow. by rewrite (signIn_flow _ Hu), Hflow.
  - intros error Hu Hstart. rewrite (signIn_flow _ Hu).
    unfold signInFlow. by rewrite Hstart.
  - intros token error Hu Hp Hstart Hsubmit. rewrite (signIn_flow _ Hu).
    unfold signInFlow. rewrite Hstart. simpl. rewrite Hp. simpl. by rewrite Hsubmit.
  - intros Hu Hstart. rewrite (signIn_flow _ Hu).
    unfold signInFlow. by rewrite Hstart.
Qed.

End Controller.

End NativeAuthFacts.

(** * Further properties of the code *)

(** ** CryptoOps: how the key store operations compose *)

Module CryptoOpsMore.
Import Js KeyStore CryptoOps TestDouble FaultyPlatforms KeyStoreFacts CryptoOpsFacts.

Section AnyStorage.
Context {SA SS : Type}.
Context {StA : AsyncStorage CachedKeyPair SA} {StS : AsyncStorage CryptoKey SS}.
Implicit Types cache : CryptoKeyStore SA SS.
Variable bc : Platform.

Lemma getAsymmetricPublicKey_unknown cache keyThumbprint :
  getItem (asymmetricKeys cache) keyThumbprint = None ->
  getAsymmetricPublicKey bc keyThumbprint cache
  = (Throw (AuthError SigningKeyNotFoundInStorageError), cache).
Proof.
  unfold getAsymmetricPublicKey, bindAsync, asymmetricKeys_getItem. by intros ->.
Qed.

Lemma getAsymmetricPublicKey_found cache keyThumbprint cachedKeyPair :
  getItem (asymmetricKeys cache) keyThumbprint = Some cachedKeyPair ->
  getAsymmetricPublicKey bc keyThumbprint cache
  = (match exportJwk bc (publicKey cachedKeyPair) with
     | Ok publicKeyJwk => Ok (getJwkString bc publicKeyJwk)
     | Throw t => Throw (Passed t)
     end, cache).
Proof.
  unfold getAsymmetricPublicKey, bindAsync, asymmetricKeys_getItem, await, ret.
  intros ->. by destruct (exportJwk bc (publicKey cachedKeyPair)).
Qed.

(** X1. A rejected [getPublicKeyThumbprint] has left the key store as it
    was, unless it is the storage that rejected the write. Before the write
    the rejection is the key-generation-failed error when the provider's
    pair was unusable, and otherwise the very rejection of the platform call
    (JWK export, digest or import) that failed. A rejected write comes after
    every platform call resolved, it is the write of the generated pair
    under its thumbprint, and its rejection is passed through as it is; the
    symmetric partition is untouched, the asymmetric partition is what the
    rejected write left, and on a storage that keeps the key store contract
    no other thumbprint's lookup has changed. *)
Theorem getPublicKeyThumbprint_rejection_cases cache request keyType e cache' :
  getPublicKeyThumbprint bc request keyType cache = (Throw e, cache') ->
  (cache' = cache
   /\ if generationFails (generateKeyPair bc (keyOptionsFor bc keyType) EXTRACTABLE)
      then e = AuthError
                 (generationFailure
                    (generateKeyPair bc (keyOptionsFor bc keyType) EXTRACTABLE))
      else exists t,
             e = Passed t
             /\ ((exists key, exportJwk bc key = Throw t)
                 \/ (exists text, sha256Digest bc text = Throw t)
                 \/ (exists jwk, importJwk bc (keyOptionsFor bc keyType) jwk false
                                   (privateKeyUsage (keyOptionsFor bc keyType))
                                 = Throw t)))
  \/ (exists pub priv publicKeyJwk digest privateKeyJwk unextractable t,
        generateKeyPair bc (keyOptionsFor bc keyType) EXTRACTABLE
          = Ok (Some {| pairPublicKey := Some pub; pairPrivateKey := Some priv |})
        /\ exportJwk bc pub = Ok publicKeyJwk
        /\ sha256Digest bc
             (getJwkString bc [("e", getField "e" publicKeyJwk);
                               ("kty", getField "kty" publicKeyJwk);
                               ("n", getField "n" publicKeyJwk)]) = Ok digest
        /\ exportJwk bc priv = Ok privateKeyJwk
        /\ importJwk bc (keyOptionsFor bc keyType) privateKeyJwk false
             (privateKeyUsage (keyOptionsFor bc keyType)) = Ok unextractable
        /\ setItem (asymmetricKeys cache) (urlEncodeArr bc digest)
             {| privateKey := unextractable;
                publicKey := pub;
                requestMethod := resourceRequestMethod request;
                requestUri := resourceRequestUri request |}
           = (asymmetricKeys cache', Throw t)
        /\ e = Passed t
        /\ symmetricKeys cache' = symmetricKeys cache
        /\ (StorageContract StA ->
            forall k, k <> urlEncodeArr bc digest ->
              getItem (asymmetricKeys cache') k = getItem (asymmetricKeys cache) k)).
Proof.
  intros Hrun.
  destruct (getPublicKeyThumbprint_inv bc cache request keyType)
    as [(e0 & Hstop & He)
       |(pub & priv & publicKeyJwk & digest & privateKeyJwk & unext
         & Hgen & Hpub & Hsha & Hpriv & Himp)].
  - left. rewrite Hstop in Hrun. by injection Hrun as <- <-.
  - right.
    rewrite (getPublicKeyThumbprint_write bc _ _ _ _ _ _ _ _ _ Hgen Hpub Hsha Hpriv Himp)
      in Hrun.
    exists pub, priv, publicKeyJwk, digest, privateKeyJwk, unext.
    destruct (setItem _ _ _) as [written [[]|t]] eqn:Hset; simpl in Hrun;
      [discriminate Hrun|].
    injection Hrun as <- <-. exists t. cbn [asymmetricKeys symmetricKeys].
    split_and!; try done.
    intros C k Hk.
      destruct (set_touches_its_key _ C (asymmetricKeys cache) (urlEncodeArr bc digest)
                  {| privateKey := unext; publicKey := pub;
                     requestMethod := resourceRequestMethod request;
                     requestUri := resourceRequestUri request |} k) as [Hsame | [-> _]];
      [|done].
    by rewrite Hset in Hsame.
Qed.

(** X2. After [getPublicKeyThumbprint] returned [kid],
    [getAsymmetricPublicKey kid] resolves with the JWK string of the whole
    exported public key (not only its [e], [kty], [n] members) and leaves
    the store as it is. *)
Theorem getAsymmetricPublicKey_after_generation cache request keyType kid cache' :
  StorageContract StA ->
  getPublicKeyThumbprint bc request keyType cache = (Ok kid, cache') ->
  exists pub priv publicKeyJwk,
    generateKeyPair bc (keyOptionsFor bc keyType) EXTRACTABLE
      = Ok (Some {| pairPublicKey := Some pub; pairPrivateKey := Some priv |})
    /\ exportJwk bc pub = Ok publicKeyJwk
    /\ getAsymmetricPublicKey bc kid cache' = (Ok (getJwkString bc publicKeyJwk), cache').
Proof.
  intros C Hrun.
  destruct (getPublicKeyThumbprint_cached bc _ _ _ _ _ C Hrun)
    as (pub & priv & publicKeyJwk & ? & ? & unext
        & Hgen & Hpub & _ & _ & _ & _ & Hget & _).
  exists pub, priv, publicKeyJwk. split_and!; try done.
  rewrite (getAsymmetricPublicKey_found _ _ _ Hget). simpl. by rewrite Hpub.
Qed.

(** X3. A key removed with [removeTokenBindingKey] can no longer sign: on
    any store, [removeTokenBindingKey kid] resolves with [true] and
    afterwards both [signJwt] and [getAsymmetricPublicKey] with that [kid]
    reject with the signing-key-not-found error. *)
Theorem removed_key_cannot_sign cache kid payload :
  StorageContract StA ->
  exists cache',
    removeTokenBindingKey kid cache = (Ok true, cache')
    /\ signJwt bc payload kid cache'
       = (Throw (AuthError SigningKeyNotFoundInStorageError), cache')
    /\ getAsymmetricPublicKey bc kid cache'
       = (Throw (AuthError SigningKeyNotFoundInStorageError), cache').
Proof.
  intros C. rewrite removeTokenBindingKey_run. eexists.
  assert (Hgone : getItem (removeItem (asymmetricKeys cache) kid) kid = None).
  { rewrite (get_after_remove _ C). by rewrite decide_True. }
  split_and!.
  - do 2 f_equal. by apply negb_containsKey_iff_absent; [apply (contains_iff_get _ C)|].
  - by apply signJwt_unknown_kid.
  - by apply getAsymmetricPublicKey_unknown.
Qed.

(** X4. After a [clearKeystore] that resolved with [true], no thumbprint
    signs any more: [signJwt] and [getAsymmetricPublicKey] reject with the
    signing-key-not-found error for every [kid]. *)
Theorem cleared_store_cannot_sign cache payload kid :
  StorageContract StA ->
  (clearKeystore cache).1 = Ok true ->
  signJwt bc payload kid (clearKeystore cache).2
  = (Throw (AuthError SigningKeyNotFoundInStorageError), (clearKeystore cache).2)
  /\ getAsymmetricPublicKey bc kid (clearKeystore cache).2
     = (Throw (AuthError SigningKeyNotFoundInStorageError), (clearKeystore cache).2).
Proof.
  intros C. rewrite clearKeystore_run. unfold storageWipe. cbn [fst snd].
  intros [= [Hok _]%andb_true_iff].
  assert (Hgone : getItem (deleteDatabase (asymmetricKeys cache)).1 kid = None)
    by by apply (get_after_wipe _ C).
  split; [by apply signJwt_unknown_kid | by apply getAsymmetricPublicKey_unknown].
Qed.

(** X5. [removeTokenBindingKey] with a [kid] the store does not hold
    resolves with [true] as well, and changes no lookup in either
    partition. *)
Theorem removeTokenBindingKey_absent cache kid :
  StorageContract StA ->
  getItem (asymmetricKeys cache) kid = None ->
  (removeTokenBindingKey kid cache).1 = Ok true
  /\ (forall k, getItem (asymmetricKeys (removeTokenBindingKey kid cache).2) k
               = getItem (asymmetricKeys cache) k)
  /\ symmetricKeys (removeTokenBindingKey kid cache).2 = symmetricKeys cache.
Proof.
  intros C Habsent. rewrite removeTokenBindingKey_run. simpl. split_and!.
  - do 2 f_equal. apply negb_containsKey_iff_absent; [apply (contains_iff_get _ C)|].
    rewrite (get_after_remove _ C). by rewrite decide_True.
  - intros k. rewrite (get_after_remove _ C). case_decide; [by subst|done].
  - reflexivity.
Qed.

(** X6. [signJwt] and [getAsymmetricPublicKey] reject with the
    signing-key-not-found error exactly when the asymmetric partition has no
    entry for the thumbprint; it is the only error of its own that
    [signJwt] throws (any other rejection is a platform call's), and
    neither method changes the key store. *)
Theorem signing_key_not_found_iff cache payload kid :
  ((signJwt bc payload kid cache).1 = Throw (AuthError SigningKeyNotFoundInStorageError)
   <-> getItem (asymmetricKeys cache) kid = None)
  /\ ((getAsymmetricPublicKey bc kid cache).1
        = Throw (AuthError SigningKeyNotFoundInStorageError)
      <-> getItem (asymmetricKeys cache) kid = None)
  /\ (forall e, (signJwt bc payload kid cache).1 = Throw (AuthError e) ->
                e = SigningKeyNotFoundInStorageError)
  /\ (signJwt bc payload kid cache).2 = cache
  /\ (getAsymmetricPublicKey bc kid cache).2 = cache.
Proof.
  split_and!.
  - split.
    + destruct (getItem (asymmetricKeys cache) kid) as [entry|] eqn:Hget; [|done].
      by destruct (signJwt_found bc cache payload kid entry Hget) as [[? ->]|[? ->]].
    + intros Hnone. by rewrite (signJwt_unknown_kid bc _ _ _ Hnone).
  - split.
    + destruct (getItem (asymmetricKeys cache) kid) as [entry|] eqn:Hget; [|done].
      rewrite (getAsymmetricPublicKey_found _ _ _ Hget). simpl.
      by destruct (exportJwk bc (publicKey entry)).
    + intros Hnone. by rewrite (getAsymmetricPublicKey_unknown _ _ Hnone).
  - intros e.
    destruct (getItem (asymmetricKeys cache) kid) as [entry|] eqn:Hget.
    + by destruct (signJwt_found bc cache payload kid entry Hget) as [[? ->]|[? ->]].
    + rewrite (signJwt_unknown_kid bc _ _ _ Hget). by intros [= <-].
  - apply signJwt_frame.
  - apply getAsymmetricPublicKey_frame.
Qed.

End AnyStorage.

Lemma Unpersisted_contract (V : Type) : StorageContract (Unpersisted V).
Proof.
  split; simpl.
  - intros s k v k' [=].
  - intros s k v k'. destruct (decide (k' = k)) as [->|Hne].
    + right. split; [done|]. apply lookup_insert_eq.
    + left. by apply lookup_insert_ne.
  - intros s k k'. apply lookup_delete.
  - intros s k. apply bool_decide_eq_true.
  - intros s k _. apply lookup_empty.
  - intros s k v H. by rewrite lookup_empty in H.
Qed.

(** A rejected import leaves the store as it was; a rejected write is the
    method's rejection, here with the pair already found in memory. *)
Lemma getPublicKeyThumbprint_rejection_cases_witness :
  ((getPublicKeyThumbprint importRejecting testRequest None storeWithBoth).1
   = Throw (Passed (JsError "DataError"))
   /\ (getPublicKeyThumbprint importRejecting testRequest None storeWithBoth).2
      = storeWithBoth)
  /\ ((getPublicKeyThumbprint (testPlatform WellBehaved) testRequest None
         unpersistedStore).1
      = Throw (Passed (JsError "QuotaExceededError"))
      /\ symmetricKeys
           (getPublicKeyThumbprint (testPlatform WellBehaved) testRequest None
              unpersistedStore).2
         = symmetricKeys unpersistedStore).
Proof.
  split.
  - assert (Hrun : getPublicKeyThumbprint importRejecting testRequest None storeWithBoth
                   = (Throw (Passed (JsError "DataError")),
                      (getPublicKeyThumbprint importRejecting testRequest None
                         storeWithBoth).2)).
    { vm_compute. reflexivity. }
    split; [by rewrite Hrun|].
    destruct (getPublicKeyThumbprint_rejection_cases importRejecting
                storeWithBoth testRequest None _ _ Hrun)
      as [[Hsame _]|(? & ? & ? & ? & ? & ? & t & _ & _ & _ & _ & _ & Hset & _)].
    + exact Hsame.
    + discriminate Hset.
  - assert (Hrun : getPublicKeyThumbprint (testPlatform WellBehaved) testRequest None
                     unpersistedStore
                   = (Throw (Passed (JsError "QuotaExceededError")),
                      (getPublicKeyThumbprint (testPlatform WellBehaved) testRequest None
                         unpersistedStore).2)).
    { vm_compute. reflexivity. }
    split; [by rewrite Hrun|].
    destruct (getPublicKeyThumbprint_rejection_cases (testPlatform WellBehaved)
                unpersistedStore testRequest None _ _ Hrun)
      as [[_ He]|(? & ? & ? & ? & ? & ? & t & _ & _ & _ & _ & _ & _ & _ & Hsym & _)].
    + simpl in He. destruct He as (t & [= <-] & [[key Hexp]|[[text Hsha]|[jwk Himp]]]).
      * simpl in Hexp. destruct (extractable key); discriminate Hexp.
      * discriminate Hsha.
      * discriminate Himp.
    + exact Hsym.
Defined.

Lemma getAsymmetricPublicKey_after_generation_witness :
  getAsymmetricPublicKey (testPlatform WellBehaved) generatedKid generatedStore
  = (Ok (stringify (JsObject testPublicJwk)), generatedStore).
Proof.
  destruct (getAsymmetricPublicKey_after_generation (testPlatform WellBehaved)
              emptyStore testRequest None generatedKid generatedStore
              (MemoryStorage_contract _) CryptoOpsExamples.generated_run)
    as (pub & priv & jwk & Hgen & Hjwk & Hrun).
  rewrite Hrun. simpl in Hgen. injection Hgen as <- _.
  simpl in Hjwk. by injection Hjwk as <-.
Defined.

Lemma removed_key_cannot_sign_witness :
  (exists token,
     signJwt (testPlatform WellBehaved) testPayload "kid-1" storeWithBoth
     = (Ok token, storeWithBoth))
  /\ exists cache',
       removeTokenBindingKey "kid-1" storeWithBoth = (Ok true, cache')
       /\ signJwt (testPlatform WellBehaved) testPayload "kid-1" cache'
          = (Throw (AuthError SigningKeyNotFoundInStorageError), cache').
Proof.
  split.
  - eexists. vm_compute. reflexivity.
  - destruct (removed_key_cannot_sign (testPlatform WellBehaved) storeWithBoth "kid-1"
                testPayload (MemoryStorage_contract _))
      as (cache' & Hremove & Hsign & _).
    by exists cache'.
Defined.

Lemma cleared_store_cannot_sign_witness :
  signJwt (testPlatform WellBehaved) testPayload "kid-1" (clearKeystore storeWithBoth).2
  = (Throw (AuthError SigningKeyNotFoundInStorageError), (clearKeystore storeWithBoth).2).
Proof.
  apply (cleared_store_cannot_sign (testPlatform WellBehaved) storeWithBoth testPayload
           "kid-1" (MemoryStorage_contract _)).
  reflexivity.
Defined.

Lemma removeTokenBindingKey_absent_witness :
  (removeTokenBindingKey "kid-2" storeWithBoth).1 = Ok true
  /\ getItem (asymmetricKeys (removeTokenBindingKey "kid-2" storeWithBoth).2) "kid-1"
     = Some testCachedKeyPair.
Proof.
  destruct (removeTokenBindingKey_absent storeWithBoth "kid-2" (MemoryStorage_contract _))
    as (Htrue & Hsame & _).
  - by vm_compute.
  - split; [exact Htrue|]. rewrite Hsame. apply lookup_singleton_eq.
Defined.

End CryptoOpsMore.

(** ** BaseClient: errors, telemetry and headers of the token call *)

Module BaseClientMore.
Import Js BaseClient TokenEndpoint BaseClientFacts.

Lemma header_setHeader_eq name value hs :
  header name (setHeader name value hs) = Some value.
Proof.
  induction hs as [|[k v] rest IH]; simpl.
  - by rewrite String.eqb_refl.
  - destruct (String.eqb k name) eqn:E; simpl; rewrite E; [done | exact IH].
Qed.

Lemma header_setHeader_ne name name' value hs :
  name <> name' ->
  header name' (setHeader name value hs) = header name' hs.
Proof.
  intros Hne. induction hs as [|[k v] rest IH]; simpl.
  - apply String.eqb_neq in Hne. by rewrite Hne.
  - destruct (String.eqb k name) eqn:E; simpl.
    + apply String.eqb_eq in E. subst k.
      apply String.eqb_neq in Hne. by rewrite Hne.
    + by rewrite IH.
Qed.

Section Headers.
Variable contentTypeName ccsHeaderName urlFormContentType : string.
Variable buildClientInfoFromHomeAccountId : string -> Outcome JsThrown ClientInfo.
Variable preventCorsPreflight : bool.

(** X10. The headers of a token request always carry the form content type
    under the content-type name and no header other than that one and the
    CCS header. The CCS header is absent when CORS preflight prevention is
    on or no credential is given; it is [UPN: <credential>] for a UPN
    credential and [Oid:<uid>@<utid>] for a home account id, and it is
    left out (nothing is thrown) when the home account id cannot be
    parsed. *)
Theorem createTokenRequestHeaders_lookup ccsCred :
  contentTypeName <> ccsHeaderName ->
  let hs :=
    (createTokenRequestHeaders contentTypeName ccsHeaderName urlFormContentType
       buildClientInfoFromHomeAccountId preventCorsPreflight ccsCred).1 in
  header contentTypeName hs = Some urlFormContentType
  /\ (forall name, name <> contentTypeName -> name <> ccsHeaderName ->
        header name hs = None)
  /\ header ccsHeaderName hs =
       match ccsCred with
       | Some cred =>
           if preventCorsPreflight then None
           else match ccsType cred with
                | UPN => Some ("UPN: " ++ credential cred)
                | HOME_ACCOUNT_ID =>
                    match buildClientInfoFromHomeAccountId (credential cred) with
                    | Ok clientInfo =>
                        Some ("Oid:" ++ uid clientInfo ++ "@" ++ utid clientInfo)
                    | Throw _ => None
                    end
                end
       | None => None
       end.
Proof.
  intros Hne hs. subst hs. unfold createTokenRequestHeaders.
  assert (Hct : forall name, name <> contentTypeName ->
                  header name (setHeader contentTypeName urlFormContentType []) = None).
  { intros name Hn. simpl. apply not_eq_sym, String.eqb_neq in Hn. by rewrite Hn. }
  destruct preventCorsPreflight, ccsCred as [[cred [|]]|]; simpl negb; cbv iota beta;
    cbn [ccsType credential fst];
    try destruct (buildClientInfoFromHomeAccountId cred) as [clientInfo|t];
    cbn [fst];
    (split_and!;
     [ first [ apply header_setHeader_eq
             | rewrite header_setHeader_ne by (by apply not_eq_sym);
               apply header_setHeader_eq ]
     | intros name H1 H2;
       first [ by apply Hct
             | rewrite header_setHeader_ne by (by apply not_eq_sym); by apply Hct ]
     | first [ apply header_setHeader_eq | by apply Hct, not_eq_sym ] ]).
Qed.

End Headers.

Section Gate.
Context {CacheManager RequestThumbprint : Type}.
Variable throttling : ThrottlingUtils CacheManager RequestThumbprint.
Variable names : HeaderNames.
Variable sendPostRequestAsync : string -> NetworkRequestOptions -> Promise NetworkResponse.
Variable networkError : AuthError.

Abbreviation isTelemetry := (isTelemetry (RequestThumbprint := RequestThumbprint)).
Abbreviation unwrapped := (unwrapped networkError).

Section WithClient.
Variable performanceClient : option (JsFields -> string -> Outcome JsThrown unit).

Abbreviation run cm thumbprint tokenEndpoint options correlationId :=
  (sendPostRequest throttling names sendPostRequestAsync performanceClient networkError
     cm thumbprint tokenEndpoint options correlationId).

(** The four shapes of a run: stopped by the pre-flight check, thrown
    after the POST, thrown by the post-flight update, or completed with the
    post-flight update. *)
Lemma sendPostRequest_cases cm thumbprint tokenEndpoint options correlationId :
  (exists cm1 e,
     run cm thumbprint tokenEndpoint options correlationId
     = ([PreProcessCalled thumbprint], cm1, Throw e))
  \/ (exists cm1 e fs,
        run cm thumbprint tokenEndpoint options correlationId
        = (PreProcessCalled thumbprint :: NetworkPost tokenEndpoint options :: fs,
           cm1, Throw e)
        /\ Forall isTelemetry fs)
  \/ (exists cm1 e response fs,
        run cm thumbprint tokenEndpoint options correlationId
        = (PreProcessCalled thumbprint :: NetworkPost tokenEndpoint options :: fs
             ++ [PostProcessCalled thumbprint response],
           cm1, Throw e)
        /\ Forall isTelemetry fs)
  \/ (exists cm1 response fs,
        run cm thumbprint tokenEndpoint options correlationId
        = (PreProcessCalled thumbprint :: NetworkPost tokenEndpoint options :: fs
             ++ [PostProcessCalled thumbprint response],
           cm1, Ok response)
        /\ Forall isTelemetry fs).
Proof.
  assert (Htel : forall fields cid,
            Forall isTelemetry
              (addFields (RequestThumbprint := RequestThumbprint) performanceClient
                 fields cid).1).
  { intros fields cid.
    destruct (addFields_trace (RequestThumbprint := RequestThumbprint)
                performanceClient fields cid) as [-> | ->];
      repeat constructor. by eexists _, _. }
  assert (Hcatch : forall e cid,
            Forall isTelemetry
              (onCatch (RequestThumbprint := RequestThumbprint) names performanceClient
                 networkError e cid).1).
  { intros e cid.
    destruct (onCatch_trace (RequestThumbprint := RequestThumbprint) names
                performanceClient networkError e cid) as [-> | [fields ->]];
      repeat constructor. by eexists _, _. }
  destruct (preProcess throttling cm thumbprint) as [cm1 [[]|e0]] eqn:Hpre.
  - destruct (sendPostRequestAsync tokenEndpoint options) as [r|e] eqn:Hnet.
    + destruct (addFields (RequestThumbprint := RequestThumbprint) performanceClient
                  (successFields names r) correlationId) as [tr [[]|e1]] eqn:Hadd.
      * rewrite (sendPostRequest_response _ _ _ _ _ _ _ _ _ _ _ _ _ Hpre Hnet Hadd).
        specialize (Htel (successFields names r) correlationId). rewrite Hadd in Htel.
        destruct (postProcess throttling cm1 thumbprint r) as [cm2 [[]|e2]]; cbn [fst snd].
        -- do 3 right. by eexists _, _, _.
        -- do 2 right. left. by eexists _, _, _, _.
      * right; left.
        rewrite (sendPostRequest_telemetry_throws _ _ _ _ _ _ _ _ _ _ _ _ _ _
                   Hpre Hnet Hadd).
        eexists _, _, _. split; [reflexivity|].
        apply Forall_app. split; [|apply Hcatch].
        specialize (Htel (successFields names r) correlationId). by rewrite Hadd in Htel.
    + right; left.
      rewrite (sendPostRequest_network_throws _ _ _ _ _ _ _ _ _ _ _ _ Hpre Hnet).
      eexists _, _, _. split; [reflexivity|]. apply Hcatch.
  - left. rewrite (sendPostRequest_throttled _ _ _ _ _ _ _ _ _ _ _ _ Hpre). eauto.
Qed.



End WithClient.

Variable performanceClient : option PerformanceClient.
Variable serverTelemetryManager : bool.

(** X9. [executePostToTokenEndpoint] clears the telemetry cache exactly when
    a telemetry manager is configured and the call resolved with a response
    whose status is below 500 and is not 429; it does so once, as the last
    step, after the post-flight throttling update. A throttled, failed or
    server-rejected call leaves the telemetry cache alone. The POST it sends
    carries the query string as body and the given headers. *)
Theorem executePostToTokenEndpoint_telemetry cm tokenEndpoint queryString requestHeaders
    thumbprint correlationId queuedEvent :
  let outcome :=
    executePostToTokenEndpoint throttling names sendPostRequestAsync performanceClient
      networkError serverTelemetryManager
      cm tokenEndpoint queryString requestHeaders thumbprint correlationId queuedEvent in
  let trace := outcome.1.1 in
  let result := outcome.2 in
  (TelemetryCacheCleared ∈ trace <->
   exists response,
     result = Ok response /\ serverTelemetryManager = true
     /\ status response < 500 /\ status response <> 429)
  /\ (TelemetryCacheCleared ∈ trace ->
      exists before response,
        trace = (before ++ [Sent (PostProcessCalled thumbprint response);
                            TelemetryCacheCleared])%list
        /\ TelemetryCacheCleared ∉ before)
  /\ (forall endpoint opts, Sent (NetworkPost endpoint opts) ∈ trace ->
        endpoint = tokenEndpoint
        /\ opts = {| optBody := queryString; optHeaders := requestHeaders |}).
Proof.
  intros outcome trace result. subst trace result outcome.
  unfold executePostToTokenEndpoint.
  assert (Hq : forall ev, ev ∈ (queueMeasurement performanceClient queuedEvent
                                  correlationId).1 ->
                 exists a b,
                   ev = QueueMeasurementAdded (RequestThumbprint := RequestThumbprint) a b).
  { intros ev. unfold queueMeasurement.
    destruct (truthyStr queuedEvent), performanceClient; simpl;
      intros Hin; try by apply elem_of_nil in Hin.
    apply list_elem_of_singleton in Hin. eauto. }
  destruct (queueMeasurement performanceClient queuedEvent correlationId)
    as [tr0 [[]|e0]]; simpl in Hq.
  2: { simpl. split_and!.
       - split; [intros Hin; apply Hq in Hin as (? & ? & ?); discriminate
                | intros (? & ? & _); discriminate].
       - intros Hin. apply Hq in Hin as (? & ? & ?). discriminate.
       - intros ? ? Hin. apply Hq in Hin as (? & ? & ?). discriminate. }
  assert (Hsent : forall (tr : list (Event RequestThumbprint)),
            TelemetryCacheCleared ∉ (tr0 ++ (Sent <$> tr))%list).
  { intros tr [Hin|Hin]%elem_of_app.
    - apply Hq in Hin as (? & ? & ?). discriminate.
    - apply list_elem_of_fmap in Hin as (? & ? & _). discriminate. }
  assert (Hposts : forall (tr : list (Event RequestThumbprint)) endpoint opts,
            Sent (NetworkPost endpoint opts) ∈ (tr0 ++ (Sent <$> tr))%list ->
            NetworkPost endpoint opts ∈ tr).
  { intros tr endpoint opts [Hin|Hin]%elem_of_app.
    - apply Hq in Hin as (? & ? & ?). discriminate.
    - apply list_elem_of_fmap in Hin as (ev & [= <-] & Hev). exact Hev. }
  assert (Hposts' : forall (tr : list (Event RequestThumbprint)) endpoint opts,
            Sent (NetworkPost endpoint opts)
              ∈ (tr0 ++ (Sent <$> tr) ++ [TelemetryCacheCleared])%list ->
            NetworkPost endpoint opts ∈ tr).
  { intros tr endpoint opts Hin. rewrite app_assoc in Hin.
    apply elem_of_app in Hin as [Hin|Hin]; [by apply Hposts|].
    apply list_elem_of_singleton in Hin. discriminate. }
  set (options := {| optBody := queryString; optHeaders := requestHeaders |}).
  assert (Hnet : forall (fs tail : list (Event RequestThumbprint)) endpoint opts,
            Forall isTelemetry fs ->
            (forall ev, ev ∈ tail -> exists t r, ev = PostProcessCalled t r) ->
            NetworkPost endpoint opts
              ∈ (PreProcessCalled thumbprint :: NetworkPost tokenEndpoint options :: fs
                   ++ tail)%list ->
            endpoint = tokenEndpoint /\ opts = options).
  { intros fs tail endpoint opts Hfs Htail Hin.
    apply elem_of_cons in Hin as [Hin|Hin]; [discriminate|].
    apply elem_of_cons in Hin as [[= -> ->]|Hin]; [done|].
    apply elem_of_app in Hin as [Hin|Hin].
    - rewrite Forall_forall in Hfs. apply Hfs in Hin as (? & ? & ?). discriminate.
    - apply Htail in Hin as (? & ? & ?). discriminate. }
  destruct (sendPostRequest_cases (perfAddFields <$> performanceClient)
              cm thumbprint tokenEndpoint options correlationId)
    as [(cm1 & e & ->)|[(cm1 & e & fs & -> & Hfs)
       |[(cm1 & e & response & fs & -> & Hfs)|(cm1 & response & fs & -> & Hfs)]]];
    cbn [fst snd].
  - split_and!.
    + split; [intros Hin; by apply Hsent in Hin | intros (? & ? & _); discriminate].
    + intros Hin. by apply Hsent in Hin.
    + intros endpoint opts Hin%Hposts.
      apply elem_of_cons in Hin as [Hin|Hin]; [discriminate|].
      by apply elem_of_nil in Hin.
  - split_and!.
    + split; [intros Hin; by apply Hsent in Hin | intros (? & ? & _); discriminate].
    + intros Hin. by apply Hsent in Hin.
    + intros endpoint opts Hin%Hposts.
      apply (Hnet fs [] endpoint opts Hfs).
      * intros ? H. by apply elem_of_nil in H.
      * by rewrite app_nil_r.
  - split_and!.
    + split; [intros Hin; by apply Hsent in Hin | intros (? & ? & _); discriminate].
    + intros Hin. by apply Hsent in Hin.
    + intros endpoint opts Hin%Hposts.
      apply (Hnet fs [PostProcessCalled thumbprint response] endpoint opts Hfs);
        [|done].
      intros ev H. apply list_elem_of_singleton in H. eauto.
  - assert (Htail : forall ev : Event RequestThumbprint,
              ev ∈ [PostProcessCalled thumbprint response] ->
              exists t r, ev = PostProcessCalled t r).
    { intros ev H. apply list_elem_of_singleton in H. eauto. }
    unfold clearsTelemetry.
    destruct serverTelemetryManager, (Z.ltb_spec (status response) 500) as [H500|H500],
      (Z.eqb_spec (status response) 429) as [H429|H429]; cbn [andb negb fst snd].
    2: { split_and!.
         - split; [intros _; exists response; by split_and!|].
           intros _. apply elem_of_app. right. apply elem_of_app. right.
           by apply list_elem_of_singleton.
         - intros _.
           exists (tr0 ++ (Sent <$> (PreProcessCalled thumbprint
                                     :: NetworkPost tokenEndpoint options :: fs)))%list,
             response.
           split; [|apply Hsent].
           rewrite !fmap_cons, fmap_app. simpl. by rewrite <- !app_assoc.
         - intros endpoint opts Hin%Hposts'. by apply (Hnet fs _ endpoint opts Hfs Htail). }
    all: split_and!;
      [ split; [intros Hin; by apply Hsent in Hin
               | intros (r & [= <-] & ? & ? & ?); (done || lia)]
      | intros Hin; by apply Hsent in Hin
      | intros endpoint opts Hin%Hposts; by apply (Hnet fs _ endpoint opts Hfs Htail) ].
Qed.

End Gate.

(** On the throttled cache of the examples the telemetry cache is left
    alone; on the expired entry, with a 200 response, it is cleared last. *)
Example executePostToTokenEndpoint_example :
  (executePostToTokenEndpoint (specThrottling 100 60 (fun _ => None)) testNames
     (fun _ _ => Ok testResponse) None testNetworkError true
     throttledCache "https://login.example/token" "grant_type=refresh_token" []
     "thumbprint-T" "cid-1" None).1.1
  = [Sent (PreProcessCalled "thumbprint-T")]
  /\ (executePostToTokenEndpoint (specThrottling 200 60 (fun _ => None)) testNames
        (fun _ _ => Ok testResponse) None testNetworkError true
        throttledCache "https://login.example/token" "grant_type=refresh_token" []
        "thumbprint-T" "cid-1" None).1.1
     = [Sent (PreProcessCalled "thumbprint-T");
        Sent (NetworkPost "https://login.example/token"
                {| optBody := "grant_type=refresh_token"; optHeaders := [] |});
        Sent (PostProcessCalled "thumbprint-T" testResponse);
        TelemetryCacheCleared].
Proof. split; vm_compute; reflexivity. Qed.

Lemma createTokenRequestHeaders_lookup_witness :
  (createTokenRequestHeaders "Content-Type" "X-AnchorMailbox"
     "application/x-www-form-urlencoded;charset=utf-8" testBuildClientInfo false
     (Some {| credential := "not-a-home-account-id"; ccsType := HOME_ACCOUNT_ID |})).1
  = [("Content-Type", "application/x-www-form-urlencoded;charset=utf-8")]
  /\ header "X-AnchorMailbox"
       (createTokenRequestHeaders "Content-Type" "X-AnchorMailbox"
          "application/x-www-form-urlencoded;charset=utf-8" testBuildClientInfo false
          (Some {| credential := "uid-1.utid-1"; ccsType := HOME_ACCOUNT_ID |})).1
     = Some "Oid:uid-1@utid-1".
Proof.
  split; [reflexivity|].
  destruct (createTokenRequestHeaders_lookup "Content-Type" "X-AnchorMailbox"
              "application/x-www-form-urlencoded;charset=utf-8" testBuildClientInfo false
              (Some {| credential := "uid-1.utid-1"; ccsType := HOME_ACCOUNT_ID |}))
    as (_ & _ & Hccs); [discriminate|].
  exact Hccs.
Defined.



End BaseClientMore.

(** ** NativeAuth: what signIn asks of its client, and the other actions *)

Module NativeAuthMore.
Import Js NativeAuth NativeAuthActions NativeAuthFacts.

Section Controller.
Variable config : NativeAuthConfig.

(** The parameters [signIn] hands to [signInClient.start]. *)
Lemma signInFlow_start env signInOptions cid u :
  signInFlow config env signInOptions cid u
  = Js.bind
      (start env
         {| startAuthority := authority config;
            startClientId := clientId config;
            startCorrelationId := cid;
            startChallengeTypes := default [] (challengeTypes config);
            startScopes := default [] (scopes signInOptions);
            startUsername := u;
            startPassword := password signInOptions |})
      (fun startResult =>
         match startResult with
         | SignInWithContinuationTokenResult continuationToken =>
             if negb (truthyStr (password signInOptions)) then
               Ok (Result None
                     (Some (SignInPasswordRequiredState cid continuationToken
                              (scopes signInOptions))))
             else
               Js.bind
                 (submitPassword env
                    {| submitAuthority := authority config;
                       submitClientId := clientId config;
                       submitCorrelationId := cid;
                       submitChallengeTypes := default [] (challengeTypes config);
                       submitScopes := default [] (scopes signInOptions);
                       submitContinuationToken := continuationToken;
                       submitPassword_ := default "" (password signInOptions) |})
                 (fun completedResult =>
                    Ok (Result (Some {| infoAccount := account completedResult;
                                        infoCorrelationId := cid |}) None))
         | SignInCodeSendResponse continuationToken =>
             Ok (Result None
                   (Some (SignInCodeRequiredState cid continuationToken
                            (scopes signInOptions))))
         | UnknownStartResult =>
             Throw (NativeAuthThrown
                      {| errorName := "unexpected_error";
                         errorDescription := "Unknow SignInStartResult type";
                         errorCorrelationId := None |})
         end).
Proof. reflexivity. Qed.

(** X11. Without a user name [signIn] does not need its client: the result,
    the invalid-argument error with the correlation id, is the same
    whatever the configuration and whatever [start] and [submitPassword]
    would do. *)
Theorem signIn_missing_username_needs_no_client config' env env' signInOptions :
  truthyStr (username signInOptions) = false ->
  createNewGuid env = createNewGuid env' ->
  signIn config env signInOptions = signIn config' env' signInOptions
  /\ signIn config env signInOptions
     = Ok (createWithError
             (InvalidArgumentError "username"
                (getCorrelationId env (correlationId signInOptions)))).
Proof.
  intros Hu Hguid.
  rewrite !(signIn_missing_username _ _ _ Hu). split; [|reflexivity].
  unfold getCorrelationId. by rewrite Hguid.
Qed.

(** X12. [submitPassword] matters only when a password was given and
    [start] answered with a continuation token: with no password, or when
    [start] gives another answer to this request, two clients that agree on
    [start] give the same [signIn] result. *)
Theorem signIn_submits_password_only_with_token env env' signInOptions :
  (forall params, start env params = start env' params) ->
  createNewGuid env = createNewGuid env' ->
  (truthyStr (password signInOptions) = false
   \/ forall token,
        start env
          {| startAuthority := authority config;
             startClientId := clientId config;
             startCorrelationId := getCorrelationId env (correlationId signInOptions);
             startChallengeTypes := default [] (challengeTypes config);
             startScopes := default [] (scopes signInOptions);
             startUsername := default "" (username signInOptions);
             startPassword := password signInOptions |}
        <> Ok (SignInWithContinuationTokenResult token)) ->
  signIn config env signInOptions = signIn config env' signInOptions.
Proof.
  intros Hstart Hguid Hcase.
  assert (Hcid : getCorrelationId env (correlationId signInOptions)
                 = getCorrelationId env' (correlationId signInOptions)).
  { unfold getCorrelationId. by rewrite Hguid. }
  destruct (truthyStr (username signInOptions)) eqn:Hu.
  - rewrite !(signIn_flow _ _ _ Hu), !signInFlow_start, <- Hcid, <- Hstart.
    destruct (start env _) as [[token|token|]|e] eqn:Hs; simpl; try reflexivity.
    destruct Hcase as [Hp|Hnever].
    + by rewrite Hp.
    + by destruct (Hnever token).
  - rewrite !(signIn_missing_username _ _ _ Hu). by rewrite Hcid.
Qed.

(** X13. With a user name and a password, when [start] answers the request
    for that user with a continuation token and [submitPassword] accepts
    that token with that password, [signIn] resolves with the account of
    the completed result; authority, client id, challenge types, scopes and
    the correlation id go into both requests. *)
Theorem signIn_with_password env signInOptions u pw token completedResult :
  username signInOptions = Some u -> u <> "" ->
  password signInOptions = Some pw -> pw <> "" ->
  let cid := getCorrelationId env (correlationId signInOptions) in
  start env
    {| startAuthority := authority config;
       startClientId := clientId config;
       startCorrelationId := cid;
       startChallengeTypes := default [] (challengeTypes config);
       startScopes := default [] (scopes signInOptions);
       startUsername := u;
       startPassword := Some pw |}
    = Ok (SignInWithContinuationTokenResult token) ->
  submitPassword env
    {| submitAuthority := authority config;
       submitClientId := clientId config;
       submitCorrelationId := cid;
       submitChallengeTypes := default [] (challengeTypes config);
       submitScopes := default [] (scopes signInOptions);
       submitContinuationToken := token;
       submitPassword_ := pw |}
    = Ok completedResult ->
  signIn config env signInOptions
  = Ok (Result (Some {| infoAccount := account completedResult;
                        infoCorrelationId := cid |}) None).
Proof.
  intros Hu Hune Hp Hpne cid Hstart Hsubmit. subst cid.
  assert (Htu : truthyStr (username signInOptions) = true).
  { rewrite Hu. simpl. by apply negb_true_iff, String.eqb_neq. }
  assert (Htp : truthyStr (password signInOptions) = true).
  { rewrite Hp. simpl. by apply negb_true_iff, String.eqb_neq. }
  rewrite (signIn_flow _ _ _ Htu), signInFlow_start, Htp.
  rewrite Hu, Hp in *. simpl in *. rewrite Hstart. simpl. by rewrite Hsubmit.
Qed.

(** X14. The next step [signIn] asks for is decided by the answer of
    [start]: a code-send response gives the code-required state, also when
    a password was supplied (it is not submitted); a continuation token
    without a password gives the password-required state. Either state
    carries the continuation token, the correlation id and the scopes as
    the caller gave them. *)
Theorem signIn_next_step env signInOptions u token :
  username signInOptions = Some u -> u <> "" ->
  let cid := getCorrelationId env (correlationId signInOptions) in
  let params :=
    {| startAuthority := authority config;
       startClientId := clientId config;
       startCorrelationId := cid;
       startChallengeTypes := default [] (challengeTypes config);
       startScopes := default [] (scopes signInOptions);
       startUsername := u;
       startPassword := password signInOptions |} in
  (start env params = Ok (SignInCodeSendResponse token) ->
   signIn config env signInOptions
   = Ok (Result None (Some (SignInCodeRequiredState cid token (scopes signInOptions)))))
  /\ (start env params = Ok (SignInWithContinuationTokenResult token) ->
      truthyStr (password signInOptions) = false ->
      signIn config env signInOptions
      = Ok (Result None
              (Some (SignInPasswordRequiredState cid token (scopes signInOptions))))).
Proof.
  intros Hu Hune cid params. subst cid params.
  assert (Htu : truthyStr (username signInOptions) = true).
  { rewrite Hu. simpl. by apply negb_true_iff, String.eqb_neq. }
  rewrite (signIn_flow _ _ _ Htu), signInFlow_start, Hu. simpl.
  split.
  - by intros ->.
  - intros -> Hp. simpl. by rewrite Hp.
Qed.

(** X15. The three actions check the user name in the same way: without
    one, [signIn], [signUp] and [resetPassword] all resolve with a result
    that carries the same invalid-argument error. With one, [signUp] and
    [resetPassword] reject as not implemented, as [getCurrentAccount]
    always does, the message naming the correlation id. *)
Theorem username_guard_uniform env cid u pw sc :
  let id := getCorrelationId env cid in
  (truthyStr u = false ->
   signIn config env {| correlationId := cid; username := u; password := pw; scopes := sc |}
     = Ok (createWithError (InvalidArgumentError "username" id))
   /\ signUp env {| actionCorrelationId := cid; actionUsername := u |}
      = Ok (resultWithError (InvalidArgumentError "username" id))
   /\ resetPassword env {| actionCorrelationId := cid; actionUsername := u |}
      = Ok (resultWithError (InvalidArgumentError "username" id)))
  /\ (truthyStr u = true ->
      signUp env {| actionCorrelationId := cid; actionUsername := u |}
        = Throw (OtherThrown
                   (JsError ("Method not implemented with Parameter " ++ id ++ ".")))
      /\ resetPassword env {| actionCorrelationId := cid; actionUsername := u |}
         = Throw (OtherThrown
                    (JsError ("Method not implemented with Parameter " ++ id ++ "."))))
  /\ getCurrentAccount env cid
     = Throw (OtherThrown
                (JsError ("Method not implemented with Parameter " ++ id ++ "."))).
Proof.
  intros id. subst id. split_and!; [| |reflexivity].
  - intros Hu. split_and!.
    + by apply signIn_missing_username.
    + unfold signUp. simpl. by rewrite Hu.
    + unfold resetPassword. simpl. by rewrite Hu.
  - intros Hu. split.
    + unfold signUp. simpl. by rewrite Hu.
    + unfold resetPassword. simpl. by rewrite Hu.
Qed.

End Controller.

(** [signIn] of the controller resolves. *)
Lemma signIn_resolves config env signInOptions :
  exists result, signIn config env signInOptions = Ok result.
Proof.
  destruct (truthyStr (username signInOptions)) eqn:Hu.
  - rewrite (signIn_flow _ _ _ Hu). destruct (signInFlow _ _ _ _ _); eauto.
  - rewrite (signIn_missing_username _ _ _ Hu). eauto.
Qed.

(** X16. [signIn] of the application always goes to the controller the
    application built for itself: a controller handed to the constructor
    changes nothing, the call returns a promise and that promise resolves.
    The three other methods throw before they return a promise. *)
Theorem application_signIn_own_controller env config controller signInOptions :
  appSignIn (construct env config controller) signInOptions
    = appSignIn (create env config) signInOptions
  /\ appSignIn (construct env config controller) signInOptions
     = Returned (signIn config env signInOptions)
  /\ (exists result,
        appSignIn (construct env config controller) signInOptions = Returned (Ok result))
  /\ (forall message,
        appSignUp (construct env config controller) <> Returned message
        /\ appResetPassword (construct env config controller) <> Returned message
        /\ appGetCurrentAccount (construct env config controller) <> Returned message).
Proof.
  split_and!; try reflexivity.
  - destruct (signIn_resolves config env signInOptions) as [result Hr].
    exists result. unfold appSignIn. simpl. by rewrite Hr.
  - intros message. by split_and!.
Qed.

Lemma signIn_missing_username_needs_no_client_witness :
  signIn testConfig testClient
    {| correlationId := Some ""; username := Some ""; password := Some "secret";
       scopes := None |}
  = signIn testConfig offlineClient
      {| correlationId := Some ""; username := Some ""; password := Some "secret";
         scopes := None |}
  /\ signIn testConfig testClient
       {| correlationId := Some ""; username := Some ""; password := Some "secret";
          scopes := None |}
     = Ok (createWithError (InvalidArgumentError "username" "guid-1")).
Proof.
  apply (signIn_missing_username_needs_no_client testConfig testConfig
           testClient offlineClient); reflexivity.
Defined.

Lemma signIn_submits_password_only_with_token_witness :
  signIn testConfig testClient
    {| correlationId := Some "cid-1"; username := Some "code@example.com";
       password := Some "secret"; scopes := None |}
  = signIn testConfig
      {| start := start testClient;
         submitPassword := submitPassword offlineClient;
         createNewGuid := "guid-1";
         JSON_stringify := JSON_stringify testClient |}
      {| correlationId := Some "cid-1"; username := Some "code@example.com";
         password := Some "secret"; scopes := None |}.
Proof.
  apply (signIn_submits_password_only_with_token testConfig testClient).
  - reflexivity.
  - reflexivity.
  - right. intros token. discriminate.
Defined.

Lemma signIn_with_password_witness :
  signIn testConfig testClient
    {| correlationId := None; username := Some "user@example.com";
       password := Some "secret"; scopes := Some ["openid"] |}
  = Ok (Result (Some {| infoAccount := "user@example.com";
                        infoCorrelationId := "guid-1" |}) None).
Proof.
  apply (signIn_with_password testConfig testClient
           {| correlationId := None; username := Some "user@example.com";
              password := Some "secret"; scopes := Some ["openid"] |}
           "user@example.com" "secret" "token-1" testAccount);
    (reflexivity || discriminate).
Defined.

Lemma signIn_next_step_witness :
  signIn testConfig testClient
    {| correlationId := Some "cid-1"; username := Some "code@example.com";
       password := Some "secret"; scopes := Some ["openid"] |}
  = Ok (Result None
          (Some (SignInCodeRequiredState "cid-1" "token-2" (Some ["openid"]))))
  /\ signIn testConfig testClient
       {| correlationId := Some "cid-1"; username := Some "user@example.com";
          password := Some ""; scopes := None |}
     = Ok (Result None (Some (SignInPasswordRequiredState "cid-1" "token-1" None))).
Proof.
  split.
  - destruct (signIn_next_step testConfig testClient
                {| correlationId := Some "cid-1"; username := Some "code@example.com";
                   password := Some "secret"; scopes := Some ["openid"] |}
                "code@example.com" "token-2" eq_refl) as [Hcode _]; [discriminate|].
    by apply Hcode.
  - destruct (signIn_next_step testConfig testClient
                {| correlationId := Some "cid-1"; username := Some "user@example.com";
                   password := Some ""; scopes := None |}
                "user@example.com" "token-1" eq_refl) as [_ Hpw]; [discriminate|].
    by apply Hpw.
Defined.

End NativeAuthMore.
